(** * immuneML: nested hyper-parameter optimisation, datasets and chain filter

    A shallow embedding of
      - [source/data_model/dataset/Dataset.py],
      - [source/preprocessing/filters/DatasetChainFilter.py],
      - [source/workflows/processes/HPOptimizationProcess.py],
    followed by the properties established about them.

    Python values are modelled as follows: [str] is [string]; [int] is [Z];
    a list is [list]; a [dict] with string keys is a [gmap string _]; [None]
    defaults are [option]s; exceptions are values of [Py.Exn] carried on the
    left of a sum. Metric values (Python floats) are modelled as exact
    rationals [Qc]. *)

From Stdlib Require Import ZArith QArith Qcanon Ascii String Lia.
From stdpp Require Import base tactics option list gmap strings sorting pretty numbers.

Local Open Scope string_scope.

(** ** Python preliminaries *)

Module Py.

(** Exceptions the modelled code can raise itself, and [External] for
    whatever a collaborator (encoder, trainer, report, splitter ...) raises. *)
Inductive Exn : Type :=
| NotImplementedError
| IndexError
| KeyError (key : string)
| ZeroDivisionError
| FileNotFoundError (path : string)
| External (what : string).

#[global] Instance Exn_eq_dec : EqDecision Exn.
Proof. solve_decision. Defined.

(** [Result A] is the outcome of a pure Python expression that may raise. *)
Definition Result (A : Type) : Type := Exn + A.

Definition bindR {A B} (r : Result A) (k : A -> Result B) : Result B :=
  match r with
  | inl e => inl e
  | inr a => k a
  end.

Definition mapR {A B} (f : A -> B) (r : Result A) : Result B :=
  bindR r (fun a => inr (f a)).

(** [sorted(l)] and [l.sort()] on a list of [str]: ascending in the
    lexicographic order of the characters' codes. *)
Definition sorted (l : list string) : list string := merge_sort String.le l.

(** Upper case for strings of ASCII characters, on which it is what
    [str.upper()] gives. It serves the examples; the code below takes
    [str.upper] as given. *)
Definition ascii_upper (c : ascii) : ascii :=
  let n := nat_of_ascii c in
  if Nat.leb 97 n && Nat.leb n 122 then ascii_of_nat (n - 32) else c.

Fixpoint upper_ascii (s : string) : string :=
  match s with
  | EmptyString => EmptyString
  | String c s' => String (ascii_upper c) (upper_ascii s')
  end.

(** [range(n)] for a Python int [n]: empty when [n <= 0]. *)
Definition range (n : Z) : list nat := seq 0 (Z.to_nat n).

(** [l[i]] for a non-negative index. *)
Definition getitem {A} (l : list A) (i : nat) : Result A :=
  match l !! i with
  | Some x => inr x
  | None => inl IndexError
  end.

(** [d[k]] on a dict. *)
Definition dict_getitem {A} (d : gmap string A) (k : string) : Result A :=
  match d !! k with
  | Some x => inr x
  | None => inl (KeyError k)
  end.

(** The tab character of the format strings. *)
Definition tab : string := String (ascii_of_nat 9) EmptyString.

End Py.

Declare Scope result_scope.
Delimit Scope result_scope with R.
Notation "x <- c ;; k" := (Py.bindR c (fun x => k))
  (at level 100, c at next level, right associativity) : result_scope.

(** ** [Dataset] (source/data_model/dataset/Dataset.py) *)

Module Dataset.
Section Dataset.

(** The payload types are those of classes outside this file. *)
Context {Data Params EncodedData : Type}.

(** [self.id] is the identifier given, or else [uuid.uuid1()]. *)
Inductive Ident : Type :=
| Given (identifier : string)
| Uuid1 (u : N).

Record t : Type := mk {
  data : option Data;
  params : option Params;
  encoded_data : option EncodedData;
  id : Ident;
  _filenames : list string;
  metadata_file : option string
}.

(** [Dataset.__init__]; [uuid1] is what [uuid.uuid1()] yields at the call. *)
Definition __init__ (uuid1 : N) (data : option Data) (params : option Params)
    (encoded_data : option EncodedData) (filenames : option (list string))
    (identifier : option string) (metadata_file : option string) : t :=
  {| data := data;
     params := params;
     encoded_data := encoded_data;
     id := match identifier with Some i => Given i | None => Uuid1 uuid1 end;
     _filenames := match filenames with Some fs => Py.sorted fs | None => [] end;
     metadata_file := metadata_file |}.

Definition add_data (self : t) (d : Data) : t :=
  {| data := Some d; params := params self; encoded_data := encoded_data self;
     id := id self; _filenames := _filenames self; metadata_file := metadata_file self |}.

Definition add_encoded_data (self : t) (e : EncodedData) : t :=
  {| data := data self; params := params self; encoded_data := Some e;
     id := id self; _filenames := _filenames self; metadata_file := metadata_file self |}.

(** The arguments [get_data] hands to [RepertoireGenerator.build_generator]. *)
Record Generator : Type := build_generator {
  file_list : list string;
  batch_size : Z
}.

(** [get_data]: sorts [self._filenames] in place, then builds the generator
    over that list. Returns the updated object and the generator. *)
Definition get_data (self : t) (batch_size : Z) : t * Generator :=
  let self' :=
    {| data := data self; params := params self; encoded_data := encoded_data self;
       id := id self; _filenames := Py.sorted (_filenames self);
       metadata_file := metadata_file self |} in
  (self', build_generator (_filenames self') batch_size).

Definition get_repertoire_count (self : t) : nat := length (_filenames self).

Definition set_filenames (self : t) (filenames : list string) : t :=
  {| data := data self; params := params self; encoded_data := encoded_data self;
     id := id self; _filenames := Py.sorted filenames;
     metadata_file := metadata_file self |}.

Definition get_filenames (self : t) : list string := _filenames self.

(** Assignment to [self.metadata_file]. *)
Definition set_metadata_file (self : t) (m : option string) : t :=
  {| data := data self; params := params self; encoded_data := encoded_data self;
     id := id self; _filenames := _filenames self; metadata_file := m |}.

(** The states a [Dataset] object goes through when it is built by
    [__init__] and then used through its methods only. *)
Inductive reachable : t -> Prop :=
| reach_init uuid1 d p e fs i m : reachable (__init__ uuid1 d p e fs i m)
| reach_add_data self d : reachable self -> reachable (add_data self d)
| reach_add_encoded_data self e : reachable self -> reachable (add_encoded_data self e)
| reach_get_data self bs : reachable self -> reachable (get_data self bs).1
| reach_set_filenames self fs : reachable self -> reachable (set_filenames self fs).

End Dataset.
Arguments t : clear implicits.
Arguments Generator : clear implicits.
End Dataset.

(** ** [DatasetChainFilter] (source/preprocessing/filters/DatasetChainFilter.py) *)

Module DatasetChainFilter.
Section Filter.

Context {Data Params EncodedData : Type}.

(** The [Chain] enum is declared outside this file: its members are the
    values of [Chain], and [Chain_getitem name] is [Chain[name]], which
    raises [KeyError] for a name that is no member. *)
Context {Chain : Type} `{EqDecision Chain}.
Variable Chain_getitem : string -> option Chain.

(** [str.upper()], a builtin of Python, taken as given. *)
Variable str_upper : string -> string.

(** [Filter.build_new_metadata] is inherited from a class outside this
    file; it is taken as given, returning the path of the new metadata
    file. The metadata files are kept apart from the repertoire files
    modelled below. *)
Variable build_new_metadata :
  Dataset.t Data Params EncodedData -> list nat -> string -> option string.

(** The operating system's reading of paths. [resolve p] is the directory
    entry the path [p] names: one entry for all spellings of a file
    ([out//r1.pickle] and [out/r1.pickle], a relative and an absolute
    path). [creatable p] tells whether the directory that is to hold [p]
    exists once [PathBuilder.build(result_path)] has run. The filter moves
    regular files only, which changes neither. *)
Variable resolve : string -> string.
Variable creatable : string -> bool.

Record SequenceMetadata : Type := { chain : Chain }.
Record ReceptorSequence : Type := { metadata : SequenceMetadata }.
Record Repertoire : Type := {
  sequences : list ReceptorSequence;
  identifier : string
}.

(** The repertoire files on disk: directory entry to pickled repertoire.
    Distinct entries are distinct files (there are no hard links). *)
Local Abbreviation FileSystem := (gmap string Repertoire).

(** [params] of [process]. *)
Record params_t : Type := {
  keep_chain : string;
  result_path : string
}.

(** [os.rename(src, dst)]: fails when [src] does not exist or the
    directory of [dst] does not; replaces silently what [dst] names; and
    changes nothing when [src] and [dst] name the same file. *)
Definition os_rename (src dst : string) (fs : FileSystem) : Py.Result FileSystem :=
  match fs !! resolve src with
  | None => inl (Py.FileNotFoundError src)
  | Some r =>
      if creatable dst
      then inr (<[resolve dst := r]> (delete (resolve src) fs))
      else inl (Py.FileNotFoundError dst)
  end.

(** Loading one file, as the generator does when it is advanced. *)
Definition load_repertoire (filename : string) (fs : FileSystem) : Py.Result Repertoire :=
  match fs !! resolve filename with
  | None => inl (Py.FileNotFoundError filename)
  | Some r => inr r
  end.

(** [all(sequence.metadata.chain == Chain[keep_chain.upper()] for sequence in sequences)]:
    the enum lookup is evaluated once per sequence reached, so never for
    a repertoire without sequences. *)
Fixpoint all_keep_chain (keep : string) (seqs : list ReceptorSequence) : Py.Result bool :=
  match seqs with
  | [] => inr true
  | sequence :: rest =>
      match Chain_getitem (str_upper keep) with
      | None => inl (Py.KeyError (str_upper keep))
      | Some c =>
          if decide (chain (metadata sequence) = c)
          then all_keep_chain keep rest
          else inr false
      end
  end.

Definition new_filename (params : params_t) (repertoire : Repertoire) : string :=
  result_path params +:+ identifier repertoire +:+ ".pickle".

(** The [for index, repertoire in enumerate(dataset.get_data())] loop.
    [RepertoireGenerator] is outside this file: the generator is taken to
    load the files of [file_list] lazily, one by one, in list order.
    [files] is what is left of [file_list], [index] the position reached. *)
Fixpoint process_loop (params : params_t) (dataset : Dataset.t Data Params EncodedData)
    (index : nat) (files : list string) (fs : FileSystem)
    (filenames : list string) (indices : list nat)
    : Py.Result (FileSystem * list string * list nat) :=
  match files with
  | [] => inr (fs, filenames, indices)
  | file :: files' =>
      (repertoire <- load_repertoire file fs ;;
       keep <- all_keep_chain (keep_chain params) (sequences repertoire) ;;
       if keep : bool then
         let filename := new_filename params repertoire in
         src <- Py.getitem (Dataset.get_filenames dataset) index ;;
         fs' <- os_rename src filename fs ;;
         process_loop params dataset (S index) files' fs'
           (filenames ++ [filename]) (indices ++ [index])
       else
         process_loop params dataset (S index) files' fs filenames indices)%R
  end.

(** [DatasetChainFilter.process]. Besides the processed dataset it returns
    the input object as the call leaves it ([get_data] sorts its filename
    list in place) and the files on disk afterwards. [copy.deepcopy] is the
    identity on values; [PathBuilder.build] creates directories only. *)
Definition process (dataset : Dataset.t Data Params EncodedData) (params : params_t)
    (fs : FileSystem)
    : Py.Result (Dataset.t Data Params EncodedData * Dataset.t Data Params EncodedData * FileSystem) :=
  let processed_dataset := dataset in
  let '(dataset', generator) := Dataset.get_data dataset 1 in
  (looped <- process_loop params dataset' 0 (Dataset.file_list generator) fs [] [] ;;
   let '(fs', filenames, indices) := looped in
   let processed_dataset :=
     Dataset.set_metadata_file processed_dataset
       (build_new_metadata processed_dataset indices (result_path params)) in
   let processed_dataset := Dataset.set_filenames processed_dataset filenames in
   inr (processed_dataset, dataset', fs'))%R.

(** *** What the loop amounts to, for the statements below *)

(** Whether every sequence of a repertoire is of chain [c]. *)
Definition only_chain (c : Chain) (r : Repertoire) : bool :=
  forallb (fun s => bool_decide (chain (metadata s) = c)) (sequences r).






(** The new path of the repertoire a file holds on a disk. *)
Definition new_path_of (params : params_t) (fs : FileSystem) (f : string) : string :=
  match fs !! resolve f with
  | Some r => new_filename params r
  | None => f
  end.

End Filter.
End DatasetChainFilter.

(** A concrete [Chain] enum with members [A] and [B], and small datasets on
    disk, to run the filter on. *)
Module FilterExample.

Inductive Chain : Type := A | B.

#[global] Instance Chain_eq_dec : EqDecision Chain.
Proof. solve_decision. Defined.

Definition Chain_getitem (name : string) : option Chain :=
  if decide (name = "A") then Some A
  else if decide (name = "B") then Some B
  else None.

Definition build_new_metadata (d : Dataset.t unit unit unit) (indices : list nat)
    (result_path : string) : option string :=
  match Dataset.metadata_file d with
  | Some _ => Some (result_path +:+ "metadata.csv")
  | None => None
  end.

(** Path resolution in the examples: a doubled separator counts as one. *)
Fixpoint resolve (p : string) : string :=
  match p with
  | EmptyString => EmptyString
  | String c p' =>
      match p' with
      | String c' _ =>
          if Ascii.eqb c "/" && Ascii.eqb c' "/" then resolve p' else String c (resolve p')
      | EmptyString => String c EmptyString
      end
  end.

(** Every directory of the examples exists. *)
Definition creatable (p : string) : bool := true.

Definition seq_of (c : Chain) : DatasetChainFilter.ReceptorSequence :=
  {| DatasetChainFilter.metadata := {| DatasetChainFilter.chain := c |} |}.

Definition rep1 : @DatasetChainFilter.Repertoire Chain :=
  {| DatasetChainFilter.sequences := [seq_of A; seq_of A];
     DatasetChainFilter.identifier := "r1" |}.

Definition rep2 : @DatasetChainFilter.Repertoire Chain :=
  {| DatasetChainFilter.sequences := [seq_of A; seq_of B];
     DatasetChainFilter.identifier := "r2" |}.

Definition disk : gmap string (@DatasetChainFilter.Repertoire Chain) :=
  <["in/b.pkl" := rep2]> (<["in/a.pkl" := rep1]> ∅).

Definition dataset : Dataset.t unit unit unit :=
  Dataset.__init__ 7 None None None (Some ["in/b.pkl"; "in//a.pkl"]) (Some "d1") None.

Definition params : DatasetChainFilter.params_t :=
  {| DatasetChainFilter.keep_chain := "a"; DatasetChainFilter.result_path := "out/" |}.

(** A dataset whose only file already sits where the filter moves it. *)
Definition disk_in_place : gmap string (@DatasetChainFilter.Repertoire Chain) :=
  <["out/r1.pickle" := rep1]> ∅.

Definition dataset_in_place : Dataset.t unit unit unit :=
  Dataset.__init__ 7 None None None (Some ["out/r1.pickle"]) (Some "d1") None.

Definition process :=
  DatasetChainFilter.process Chain_getitem Py.upper_ascii build_new_metadata resolve creatable.

End FilterExample.

(** ** The collaborators of [HPOptimizationProcess]

    The process only passes these values around; their classes live outside
    this file and are kept abstract. *)

Class Collaborators : Type := {
  (** [Dataset], opaque to the process *)
  Dataset : Type;
  (** [HPSetting] and its attributes *)
  HPSetting : Type;
  Encoder : Type;
  EncoderModel : Type;
  MLMethod : Type;
  MLParam : Type;
  encoder : HPSetting -> Encoder;
  encoder_params : HPSetting -> EncoderModel;
  ml_method : HPSetting -> MLMethod;
  ml_params : HPSetting -> gmap string MLParam;
  (** [str(hp_setting)] *)
  HPSetting_str : HPSetting -> string;
  (** [HPOptimizationStrategy]: the identity of a strategy object *)
  HPOptimizationStrategy : Type;
  (** [LabelConfiguration] and [get_labels_by_name()] *)
  LabelConfiguration : Type;
  get_labels_by_name : LabelConfiguration -> list string;
  (** the [metrics] set *)
  Metrics : Type;
  (** the split strategy enum and its [.name] *)
  SplitType : Type;
  SplitType_name : SplitType -> string;
  (** [training_percentage], a float that is only passed on *)
  TrainingPercentage : Type;
  (** report objects *)
  DataReport : Type;
  MLReport : Type;
  Report : Type;
  (** [str(x)] of a float *)
  float_str : Qc -> string
}.

(** A performance record: label name to metric value. *)
Definition Performance : Type := gmap string Qc.

(** The report lists of a [SplitConfig]. *)
Module ReportConfig.
Record t {C : Collaborators} : Type := mk {
  data_split_reports : list DataReport;
  optimal_model_reports : list MLReport;
  performance_reports : list Report;
  model_reports : list MLReport;
  data_reports : list DataReport
}.
End ReportConfig.

Module SplitConfig.
Record t {C : Collaborators} : Type := mk {
  split_strategy : SplitType;
  split_count : Z;
  training_percentage : TrainingPercentage;
  label_to_balance : option string;
  reports : ReportConfig.t
}.
End SplitConfig.

Module DataSplitterParams.
Record t {C : Collaborators} : Type := mk {
  dataset : Dataset;
  split_strategy : SplitType;
  split_count : Z;
  training_percentage : TrainingPercentage;
  label_to_balance : option string
}.
End DataSplitterParams.

Module EncoderParams.
Record t {C : Collaborators} : Type := mk {
  model : EncoderModel;
  result_path : string;
  batch_size : Z;
  label_configuration : LabelConfiguration;
  learn_model : bool;
  filename : string
}.
End EncoderParams.

Module DataEncoderParams.
Record t {C : Collaborators} : Type := mk {
  dataset : Dataset;
  encoder : Encoder;
  encoder_params : EncoderParams.t
}.
End DataEncoderParams.

Module MLMethodTrainerParams.
Record t {C : Collaborators} : Type := mk {
  method : MLMethod;
  result_path : string;
  dataset : Dataset;
  labels : list string;
  model_selection_cv : MLParam;
  model_selection_n_folds : MLParam;
  cores_for_training : Z
}.
End MLMethodTrainerParams.

Module MLMethodAssessmentParams.
Record t {C : Collaborators} : Type := mk {
  method : MLMethod;
  dataset : Dataset;
  predictions_path : string;
  all_predictions_path : string;
  ml_details_path : string;
  run : Z;
  label_configuration : LabelConfiguration;
  metrics : Metrics;
  path : string
}.
End MLMethodAssessmentParams.

(** The constructor arguments of [MLProcess]. *)
Module MLProcess.
Record t {C : Collaborators} : Type := mk {
  train_dataset : Dataset;
  test_dataset : Dataset;
  label_configuration : LabelConfiguration;
  encoder : Encoder;
  encoder_params : EncoderModel;
  method : MLMethod;
  ml_params : gmap string MLParam;
  metrics : Metrics;
  path : string;
  reports : list MLReport
}.
End MLProcess.

(** The deep copy of a data report with [dataset] and [path] assigned. *)
Module TmpDataReport.
Record t {C : Collaborators} : Type := mk {
  report : DataReport;
  dataset : Dataset;
  path : string
}.
End TmpDataReport.

(** The deep copy of a model report with its four attributes assigned. *)
Module TmpMLReport.
Record t {C : Collaborators} : Type := mk {
  report : MLReport;
  train_dataset : Dataset;
  test_dataset : Dataset;
  method : MLMethod;
  path : string
}.
End TmpMLReport.

(** ** Calls out of the process, and programs over them *)

(** One constructor per call the process makes to a collaborator, indexed
    by the type of what the call returns. *)
Inductive Event {C : Collaborators} : Type -> Type :=
| PathBuilder_build (path : string) : Event unit
| DataSplitter_run (params : DataSplitterParams.t) : Event (list Dataset * list Dataset)
| get_next_setting (strategy : HPOptimizationStrategy)
    (previous : option (HPSetting * Performance)) : Event (option HPSetting)
| get_optimal_hps (strategy : HPOptimizationStrategy) : Event HPSetting
| MLProcess_run (process : MLProcess.t) (run_id : Z) : Event Performance
| DataEncoder_run (params : DataEncoderParams.t) : Event Dataset
| MLMethodTrainer_run (params : MLMethodTrainerParams.t) : Event MLMethod
| MLMethodAssessment_run (params : MLMethodAssessmentParams.t) : Event Performance
| DataReport_generate_report (tmp_report : TmpDataReport.t) : Event unit
| MLReport_generate_report (tmp_report : TmpMLReport.t) : Event unit
| print (line : string) : Event unit.

(** Programs: return, raise, run out of loop fuel, or call a collaborator
    and go on with its answer. *)
Inductive Prog {C : Collaborators} (A : Type) : Type :=
| Ret (a : A)
| Raise (e : Py.Exn)
| OutOfFuel
| Call {X : Type} (ev : Event X) (k : X -> Prog A).

Arguments Ret {C A} a.
Arguments Raise {C A} e.
Arguments OutOfFuel {C A}.
Arguments Call {C A X} ev k.

Fixpoint bind {C : Collaborators} {A B : Type} (p : Prog A) (k : A -> Prog B) : Prog B :=
  match p with
  | Ret a => k a
  | Raise e => Raise e
  | OutOfFuel => OutOfFuel
  | Call ev k' => Call ev (fun x => bind (k' x) k)
  end.

Definition call {C : Collaborators} {X : Type} (ev : Event X) : Prog X := Call ev Ret.

(** A pure expression that may raise, as a program. *)
Definition lift {C : Collaborators} {A : Type} (r : Py.Result A) : Prog A :=
  match r with
  | inl e => Raise e
  | inr a => Ret a
  end.

Declare Scope prog_scope.
Delimit Scope prog_scope with P.
Notation "x <- c ;; k" := (bind c (fun x => k))
  (at level 100, c at next level, right associativity) : prog_scope.
Notation "c ;;; k" := (bind c (fun _ => k))
  (at level 100, right associativity) : prog_scope.

(** [acc = []; for index in indices: acc.append(body(index))] *)
Fixpoint for_append {C : Collaborators} {A : Type} (indices : list nat)
    (body : nat -> Prog A) (acc : list A) : Prog (list A) :=
  match indices with
  | [] => Ret acc
  | index :: rest => (x <- body index ;; for_append rest body (acc ++ [x]))%P
  end.

(** [for x in xs: body(x)] *)
Fixpoint for_each {C : Collaborators} {X : Type} (xs : list X) (body : X -> Prog unit) : Prog unit :=
  match xs with
  | [] => Ret tt
  | x :: rest => (body x ;;; for_each rest body)%P
  end.

(** *** Running a program against collaborators *)

Section Exec.
Context {C : Collaborators} {World : Type}.

(** What the collaborators do: the answer (or exception) to a call in a
    state of the world, and the state afterwards. The world holds
    everything outside the process: the strategy objects, the disk, the
    random generator of the splitter. *)
Definition Handler : Type := forall X : Type, Event X -> World -> Py.Result X * World.

Inductive Outcome (A : Type) : Type :=
| Returned (a : A)
| Raised (e : Py.Exn)
| Diverged.
#[global] Arguments Returned {A} a.
#[global] Arguments Raised {A} e.
#[global] Arguments Diverged {A}.

(** A call and its answer, as recorded in the log of an execution. *)
Record Entry : Type := entry {
  entry_type : Type;
  entry_event : Event entry_type;
  entry_answer : Py.Result entry_type
}.
#[global] Arguments entry {entry_type} entry_event entry_answer.

Fixpoint exec {A : Type} (h : Handler) (p : Prog A) (w : World) : Outcome A * World * list Entry :=
  match p with
  | Ret a => (Returned a, w, [])
  | Raise e => (Raised e, w, [])
  | OutOfFuel => (Diverged, w, [])
  | Call ev k =>
      let '(r, w') := h _ ev w in
      match r with
      | inl e => (Raised e, w', [entry ev (inl e)])
      | inr x =>
          let '(o, w'', log) := exec h (k x) w' in
          (o, w'', entry ev (inr x) :: log)
      end
  end.

(** Collaborators as relations, for statements that do not assume that a
    call has one answer only. *)
Definition Behaviour : Type := forall X : Type, Event X -> World -> Py.Result X -> World -> Prop.

Fixpoint runs {A : Type} (R : Behaviour) (p : Prog A) (w : World) (o : Outcome A) (w' : World) : Prop :=
  match p with
  | Ret a => o = Returned a /\ w' = w
  | Raise e => o = Raised e /\ w' = w
  | OutOfFuel => o = Diverged /\ w' = w
  | Call ev k =>
      (exists e, R _ ev w (inl e) w' /\ o = Raised e) \/
      (exists x w1, R _ ev w (inr x) w1 /\ runs R (k x) w1 o w')
  end.

Definition functional (R : Behaviour) : Prop :=
  forall X (ev : Event X) w r1 w1 r2 w2,
    R X ev w r1 w1 -> R X ev w r2 w2 -> r1 = r2 /\ w1 = w2.

Definition graph (h : Handler) : Behaviour :=
  fun X ev w r w' => h X ev w = (r, w').

End Exec.

(** *** The calls a program can make, whatever the collaborators answer *)

Section Traces.
Context {C : Collaborators}.

(** [traces p log o]: [p] can make the calls of [log], receiving the
    answers recorded there, and end with outcome [o]. *)
Fixpoint traces {A : Type} (p : Prog A) (log : list Entry) (o : Outcome A) : Prop :=
  match p with
  | Ret a => log = [] /\ o = Returned a
  | Raise e => log = [] /\ o = Raised e
  | OutOfFuel => log = [] /\ o = Diverged
  | Call ev k =>
      (exists e, log = [entry ev (inl e)] /\ o = Raised e) \/
      (exists x log', log = entry ev (inr x) :: log' /\ traces (k x) log' o)
  end.

(** [calls_only P p]: every call [p] can make satisfies [P]. *)
Fixpoint calls_only {A : Type} (P : forall X, Event X -> Prop) (p : Prog A) : Prop :=
  match p with
  | Call ev k => P _ ev /\ forall x, calls_only P (k x)
  | _ => True
  end.



End Traces.

Notation "ev ↦ x" := (entry ev (inr x)) (at level 55, no associativity).

(** ** [HPOptimizationProcess] (source/workflows/processes/HPOptimizationProcess.py) *)

Module HPOptimizationProcess.

(** The attributes [__init__] assigns. [hp_strategy] is the strategy
    object the process was given; [batch_size] is set to 10 by
    [__init__]. *)
Record t {C : Collaborators} : Type := mk {
  dataset : Dataset;
  selection : SplitConfig.t;
  hp_strategy : HPOptimizationStrategy;
  hp_settings : list HPSetting;
  path : option string;
  batch_size : Z;
  label_configuration : LabelConfiguration;
  metrics : Metrics;
  assessment : SplitConfig.t
}.

Definition __init__ {C : Collaborators} (dataset : Dataset)
    (hp_strategy : HPOptimizationStrategy) (hp_settings : list HPSetting)
    (assessment selection : SplitConfig.t) (metrics : Metrics)
    (label_configuration : LabelConfiguration) (path : option string) : t :=
  {| dataset := dataset; selection := selection; hp_strategy := hp_strategy;
     hp_settings := hp_settings; path := path; batch_size := 10;
     label_configuration := label_configuration; metrics := metrics;
     assessment := assessment |}.

Section Process.
Context {C : Collaborators}.
Variable self : t.

Local Open Scope prog_scope.

(** ["{}".format(x)] for [self.path], which may be [None]. *)
Definition format_path (p : option string) : string :=
  match p with
  | Some s => s
  | None => "None"
  end.

(** [sum(perf[label] for perf in performances)]: starts from 0 and adds
    from the left; a record without the label raises [KeyError]. *)
Definition sum_label (label : string) (performances : list Performance) : Py.Result Qc :=
  fold_left
    (fun acc perf => (s <- acc ;; v <- Py.dict_getitem perf label ;; inr (s + v)%Qc)%R)
    performances (inr (Q2Qc 0)).

(** [sum(perf[label] for perf in performances) / len(performances)] *)
Definition sum_div_len (label : string) (performances : list Performance) : Py.Result Qc :=
  (s <- sum_label label performances ;;
   match length performances with
   | O => inl Py.ZeroDivisionError
   | S _ => inr (s / Q2Qc (inject_Z (Z.of_nat (length performances))))%Qc
   end)%R.

Definition split_data (dataset : Dataset) (split_config : SplitConfig.t)
    : Prog (list Dataset * list Dataset) :=
  call (DataSplitter_run
    {| DataSplitterParams.dataset := dataset;
       DataSplitterParams.split_strategy := SplitConfig.split_strategy split_config;
       DataSplitterParams.split_count := SplitConfig.split_count split_config;
       DataSplitterParams.training_percentage := SplitConfig.training_percentage split_config;
       DataSplitterParams.label_to_balance := SplitConfig.label_to_balance split_config |}).

(** The dict comprehension over the registered labels, in their order. *)
Definition get_average_performance (metrics_per_label : list Performance) : Py.Result Performance :=
  fold_left
    (fun acc label =>
       (d <- acc ;; v <- sum_div_len label metrics_per_label ;; inr (<[label := v]> d))%R)
    (get_labels_by_name (label_configuration self)) (inr ∅).

Definition train_optimal_method (dataset : Dataset) (hp_setting : HPSetting) (path : string)
    : Prog MLMethod :=
  cv <- lift (Py.dict_getitem (ml_params hp_setting) "model_selection_cv") ;;
  n_folds <- lift (Py.dict_getitem (ml_params hp_setting) "model_selection_n_folds") ;;
  call (MLMethodTrainer_run
    {| MLMethodTrainerParams.method := ml_method hp_setting;
       MLMethodTrainerParams.result_path := path +:+ "/ml_method/";
       MLMethodTrainerParams.dataset := dataset;
       MLMethodTrainerParams.labels := get_labels_by_name (label_configuration self);
       MLMethodTrainerParams.model_selection_cv := cv;
       MLMethodTrainerParams.model_selection_n_folds := n_folds;
       MLMethodTrainerParams.cores_for_training := (-1) |}).

Definition encode_dataset (dataset : Dataset) (hp_setting : HPSetting) (path : string)
    (learn_model : bool) : Prog Dataset :=
  call (DataEncoder_run
    {| DataEncoderParams.dataset := dataset;
       DataEncoderParams.encoder := encoder hp_setting;
       DataEncoderParams.encoder_params :=
         {| EncoderParams.model := encoder_params hp_setting;
            EncoderParams.result_path := path;
            EncoderParams.batch_size := batch_size self;
            EncoderParams.label_configuration := label_configuration self;
            EncoderParams.learn_model := learn_model;
            EncoderParams.filename :=
              if learn_model then "train_dataset.pkl" else "test_dataset.pkl" |} |}).

Definition assess_performance (optimal_method : MLMethod) (dataset : Dataset) (run : Z)
    (current_path : string) : Prog Performance :=
  call (MLMethodAssessment_run
    {| MLMethodAssessmentParams.method := optimal_method;
       MLMethodAssessmentParams.dataset := dataset;
       MLMethodAssessmentParams.predictions_path := current_path +:+ "predictions.csv";
       MLMethodAssessmentParams.all_predictions_path :=
         format_path (path self) +:+ "assessment_"
           +:+ SplitType_name (SplitConfig.split_strategy (assessment self))
           +:+ "/all_predictions.csv";
       MLMethodAssessmentParams.ml_details_path := current_path +:+ "ml_details.csv";
       MLMethodAssessmentParams.run := run;
       MLMethodAssessmentParams.label_configuration := label_configuration self;
       MLMethodAssessmentParams.metrics := metrics self;
       MLMethodAssessmentParams.path := current_path |}).

Definition run_data_report (report : DataReport) (dataset : Dataset) (path : string) : Prog unit :=
  call (DataReport_generate_report
    {| TmpDataReport.report := report;
       TmpDataReport.dataset := dataset;
       TmpDataReport.path := path |}).

Definition run_model_report (report : MLReport) (train_dataset test_dataset : Dataset)
    (method : MLMethod) (path : string) : Prog unit :=
  call (MLReport_generate_report
    {| TmpMLReport.report := report;
       TmpMLReport.train_dataset := train_dataset;
       TmpMLReport.test_dataset := test_dataset;
       TmpMLReport.method := method;
       TmpMLReport.path := path |}).

Definition run_performance_report (report : Report) (method : MLMethod)
    (train_dataset test_dataset : Dataset) (path : string) : Prog unit :=
  Raise Py.NotImplementedError.

Definition run_selection_reports (dataset : Dataset) (train_datasets test_datasets : list Dataset)
    (path : string) : Prog unit :=
  for_each (SplitConfig.reports (selection self)).(ReportConfig.data_split_reports)
    (fun report =>
       for_each (seq 0 (length train_datasets))
         (fun index =>
            train <- lift (Py.getitem train_datasets index) ;;
            run_data_report report train
              (path +:+ "split_" +:+ pretty (Z.of_nat index + 1)%Z +:+ "/train/") ;;;
            test <- lift (Py.getitem test_datasets index) ;;
            run_data_report report test
              (path +:+ "split_" +:+ pretty (Z.of_nat index + 1)%Z +:+ "/test/"))) ;;;
  for_each (SplitConfig.reports (selection self)).(ReportConfig.data_reports)
    (fun report => run_data_report report dataset path).

Definition run_assessment_reports (train_dataset test_dataset : Dataset) (method : MLMethod)
    (path : string) : Prog unit :=
  for_each (SplitConfig.reports (assessment self)).(ReportConfig.data_split_reports)
    (fun report =>
       run_data_report report train_dataset (path +:+ "train/") ;;;
       run_data_report report test_dataset (path +:+ "test/")) ;;;
  for_each (SplitConfig.reports (assessment self)).(ReportConfig.optimal_model_reports)
    (fun report => run_model_report report train_dataset test_dataset method path) ;;;
  for_each (SplitConfig.reports (assessment self)).(ReportConfig.performance_reports)
    (fun report => run_performance_report report method train_dataset test_dataset path).

Definition run_setting (hp_setting : HPSetting) (train_dataset test_dataset : Dataset)
    (run_id : Z) (current_path : string) : Prog Performance :=
  let path := current_path +:+ HPSetting_str hp_setting +:+ "/fold_" +:+ pretty run_id +:+ "/" in
  call (PathBuilder_build path) ;;;
  call (MLProcess_run
    {| MLProcess.train_dataset := train_dataset;
       MLProcess.test_dataset := test_dataset;
       MLProcess.label_configuration := label_configuration self;
       MLProcess.encoder := encoder hp_setting;
       MLProcess.encoder_params := encoder_params hp_setting;
       MLProcess.method := ml_method hp_setting;
       MLProcess.ml_params := ml_params hp_setting;
       MLProcess.metrics := metrics self;
       MLProcess.path := path;
       MLProcess.reports := (SplitConfig.reports (selection self)).(ReportConfig.model_reports) |}
    run_id).

Definition test_hp_setting (hp_setting : HPSetting) (train_datasets test_datasets : list Dataset)
    (current_path : string) : Prog Performance :=
  fold_performances <-
    for_append (Py.range (SplitConfig.split_count (selection self)))
      (fun index =>
         train <- lift (Py.getitem train_datasets index) ;;
         test <- lift (Py.getitem test_datasets index) ;;
         run_setting hp_setting train test (Z.of_nat index + 1)%Z current_path) [] ;;
  lift (get_average_performance fold_performances).

(** [while hp_setting is not None: ...], run for at most [fuel] rounds. *)
Fixpoint selection_loop (fuel : nat) (hp_setting : option HPSetting)
    (train_datasets test_datasets : list Dataset) (path : string) : Prog unit :=
  match hp_setting with
  | None => Ret tt
  | Some setting =>
      match fuel with
      | O => OutOfFuel
      | S fuel' =>
          performance <- test_hp_setting setting train_datasets test_datasets path ;;
          next <- call (get_next_setting (hp_strategy self) (Some (setting, performance))) ;;
          selection_loop fuel' next train_datasets test_datasets path
      end
  end.

Definition run_selection (fuel : nat) (train_dataset : Dataset) (current_path : string)
    : Prog HPSetting :=
  splits <- split_data train_dataset (selection self) ;;
  let '(train_datasets, test_datasets) := splits in
  let path := current_path +:+ "selection_"
                +:+ SplitType_name (SplitConfig.split_strategy (selection self)) +:+ "/" in
  call (PathBuilder_build path) ;;;
  hp_setting <- call (get_next_setting (hp_strategy self) None) ;;
  selection_loop fuel hp_setting train_datasets test_datasets path ;;;
  run_selection_reports train_dataset train_datasets test_datasets (path +:+ "reports/") ;;;
  call (get_optimal_hps (hp_strategy self)).

Definition run_assessment_fold (fuel : nat) (train_dataset test_dataset : Dataset) (run : Z)
    : Prog Performance :=
  let current_path := format_path (path self) +:+ "assessment_"
                        +:+ SplitType_name (SplitConfig.split_strategy (assessment self))
                        +:+ "/run_" +:+ pretty run +:+ "/" in
  call (PathBuilder_build current_path) ;;;
  optimal_hp_setting <- run_selection fuel train_dataset current_path ;;
  encoded_train_dataset <- encode_dataset train_dataset optimal_hp_setting current_path true ;;
  optimal_method <- train_optimal_method encoded_train_dataset optimal_hp_setting
                      (current_path +:+ "optimal/") ;;
  encoded_test_dataset <- encode_dataset test_dataset optimal_hp_setting current_path false ;;
  performance <- assess_performance optimal_method encoded_test_dataset run current_path ;;
  run_assessment_reports train_dataset test_dataset optimal_method (current_path +:+ "reports/") ;;;
  Ret performance.

(** The lines [print_performances] writes, one [print] call each. *)
Definition header_line : string :=
  fold_left (fun header label => header +:+ label +:+ Py.tab)
    (get_labels_by_name (label_configuration self)) ("run" +:+ Py.tab).

Definition row_line (index : nat) (performance : Performance) : Py.Result string :=
  fold_left
    (fun acc label =>
       (row <- acc ;; v <- Py.dict_getitem performance label ;;
        inr (row +:+ float_str v +:+ Py.tab))%R)
    (get_labels_by_name (label_configuration self))
    (inr (pretty (Z.of_nat index + 1)%Z +:+ Py.tab)).

Definition average_line (label : string) (performances : list Performance) : Py.Result string :=
  (avg <- sum_div_len label performances ;;
   inr ("Label: " +:+ label +:+ ", average balanced accuracy: " +:+ float_str avg))%R.

Definition print_performances (performances : list Performance) : Prog unit :=
  call (print "------ Assessment scores (balanced accuracy) per label ------") ;;;
  call (print header_line) ;;;
  for_each (imap pair performances)
    (fun '(index, performance) =>
       row <- lift (row_line index performance) ;;
       call (print row)) ;;;
  call (print "--------------------------------------------------------------") ;;;
  for_each (get_labels_by_name (label_configuration self))
    (fun label =>
       line <- lift (average_line label performances) ;;
       call (print line)).

Definition run_assessment (fuel : nat) : Prog (list Performance) :=
  splits <- split_data (dataset self) (assessment self) ;;
  let '(train_datasets, test_datasets) := splits in
  fold_performances <-
    for_append (Py.range (SplitConfig.split_count (assessment self)))
      (fun index =>
         train <- lift (Py.getitem train_datasets index) ;;
         test <- lift (Py.getitem test_datasets index) ;;
         run_assessment_fold fuel train test (Z.of_nat index + 1)%Z) [] ;;
  print_performances fold_performances ;;;
  Ret fold_performances.

Definition run (fuel : nat) : Prog (list Performance) := run_assessment fuel.

(** *** Names for the statements below *)

(** [current_path] of [run_assessment_fold]. *)
Definition fold_path (run : Z) : string :=
  format_path (path self) +:+ "assessment_"
    +:+ SplitType_name (SplitConfig.split_strategy (assessment self))
    +:+ "/run_" +:+ pretty run +:+ "/".

(** [path] of [run_selection]. *)
Definition selection_path (current_path : string) : string :=
  current_path +:+ "selection_"
    +:+ SplitType_name (SplitConfig.split_strategy (selection self)) +:+ "/".

End Process.
End HPOptimizationProcess.


(** ** [Dataset.get_repertoire] (source/data_model/dataset/Dataset.py) *)

Module DatasetRepertoire.

(** What a call can fail with: the [assert] of [get_repertoire], or an
    exception raised while the argument is computed or the file is loaded. *)
Inductive Failure : Type :=
| AssertionError (message : string)
| Exception (e : Py.Exn).

(** [l[i]] for any Python int [i]: a negative index counts from the end. *)
Definition index_getitem {A : Type} (l : list A) (i : Z) : Py.Result A :=
  if (0 <=? i)%Z then Py.getitem l (Z.to_nat i)
  else if (- Z.of_nat (length l) <=? i)%Z
       then Py.getitem l (Z.to_nat (Z.of_nat (length l) + i))
       else inl Py.IndexError.

Section GetRepertoire.

Context {Data Params EncodedData Repertoire : Type}.

(** [RepertoireGenerator.load_repertoire], a function of another file. *)
Variable load_repertoire : string -> Py.Result Repertoire.

(** An exception raised past the assertion. *)
Definition loaded (r : Py.Result Repertoire) : Failure + Repertoire :=
  match r with
  | inl e => inl (Exception e)
  | inr x => inr x
  end.

(** [get_repertoire(index=-1, filename="")]. The conditional expression
    looks at [self._filenames[index]] only when no filename is given. *)
Definition get_repertoire (self : Dataset.t Data Params EncodedData) (index : Z)
    (filename : string) : Failure + Repertoire :=
  if bool_decide (index <> (-1)%Z) || bool_decide (filename <> "") then
    let path :=
      if bool_decide (filename <> "") then inr filename
      else index_getitem (Dataset._filenames self) index in
    loaded (p <- path ;; load_repertoire p)%R
  else
    inl (AssertionError
           "Dataset: cannot load repertoire since the index nor filename are set.").

End GetRepertoire.
End DatasetRepertoire.


(** More small inputs for the filter: a chain name that is no member of the
    enum, and a disk with one empty and one non-empty repertoire. *)
Module FilterEdgeCases.

Definition no_chain : DatasetChainFilter.params_t :=
  {| DatasetChainFilter.keep_chain := "gamma"; DatasetChainFilter.result_path := "out/" |}.

Definition empty_rep : @DatasetChainFilter.Repertoire FilterExample.Chain :=
  {| DatasetChainFilter.sequences := []; DatasetChainFilter.identifier := "e1" |}.

Definition disk_empty : gmap string (@DatasetChainFilter.Repertoire FilterExample.Chain) :=
  <["in/e.pkl" := empty_rep]> ∅.

Definition dataset_empty : Dataset.t unit unit unit :=
  Dataset.__init__ 7 None None None (Some ["in/e.pkl"]) (Some "d2") None.

(** What the filter of [FilterExample] returns and leaves on the disk. *)
Definition processed : Dataset.t unit unit unit :=
  Dataset.__init__ 7 None None None (Some ["out/r1.pickle"]) (Some "d1") None.

Definition disk_after : gmap string (@DatasetChainFilter.Repertoire FilterExample.Chain) :=
  <["out/r1.pickle" := FilterExample.rep1]> (<["in/b.pkl" := FilterExample.rep2]> ∅).

End FilterEdgeCases.


(** ** Arithmetic on performance records, for the statements below *)

(** The sum of a list of metric values. *)
Definition total (values : list Qc) : Qc := foldr Qcplus (Q2Qc 0) values.

(** The values the records of [performances] hold for [label], when each
    of them has one. *)
Definition label_values (label : string) (performances : list Performance)
    : option (list Qc) :=
  mapM (fun perf : Performance => perf !! label) performances.

(** The number of records, as a metric value. *)
Definition count (performances : list Performance) : Qc :=
  Q2Qc (inject_Z (Z.of_nat (length performances))).


(** ** The rounds of the Selection Loop, for the statements below *)

Section Rounds.
Context {C : Collaborators}.
Variable self : HPOptimizationProcess.t.

(** [rounds trains tests path setting log]: [log] is what the [while]
    loop of [run_selection] does when it is entered with [setting]: for
    each candidate in turn, evaluate it with [test_hp_setting], then hand
    it back to the strategy with the record returned and receive the next
    candidate, until the strategy answers [None]. *)
Inductive rounds (train_datasets test_datasets : list Dataset) (path : string)
    : option HPSetting -> list Entry -> Prop :=
| rounds_done : rounds train_datasets test_datasets path None []
| rounds_next setting l_evaluation average next l_rest :
    traces (HPOptimizationProcess.test_hp_setting self setting train_datasets test_datasets path)
      l_evaluation (Returned average) ->
    rounds train_datasets test_datasets path next l_rest ->
    rounds train_datasets test_datasets path (Some setting)
      (l_evaluation
         ++ [get_next_setting (HPOptimizationProcess.hp_strategy self)
               (Some (setting, average)) ↦ next]
         ++ l_rest).


End Rounds.

(** ** A small concrete setting to run the process in *)

Module HPOExample.

(** Datasets, settings, methods and reports are names; a label
    configuration is its list of label names. *)
Definition collaborators : Collaborators := {|
  Dataset := string;
  HPSetting := string;
  Encoder := string;
  EncoderModel := string;
  MLMethod := string;
  MLParam := bool;
  encoder := fun s => "enc_" +:+ s;
  encoder_params := fun s => "params_" +:+ s;
  ml_method := fun s => "method_" +:+ s;
  ml_params := fun _ =>
    <["model_selection_cv" := false]> (<["model_selection_n_folds" := false]> ∅);
  HPSetting_str := fun s => s;
  HPOptimizationStrategy := unit;
  LabelConfiguration := list string;
  get_labels_by_name := fun l => l;
  Metrics := unit;
  SplitType := unit;
  SplitType_name := fun _ => "random";
  TrainingPercentage := unit;
  DataReport := string;
  MLReport := string;
  Report := string;
  float_str := fun q => pretty (Qnum (this q)) +:+ "/" +:+ pretty (Zpos (Qden (this q)))
|}.

#[local] Existing Instance collaborators.

Definition no_reports : ReportConfig.t :=
  {| ReportConfig.data_split_reports := [];
     ReportConfig.optimal_model_reports := [];
     ReportConfig.performance_reports := [];
     ReportConfig.model_reports := [];
     ReportConfig.data_reports := [] |}.

Definition some_reports : ReportConfig.t :=
  {| ReportConfig.data_split_reports := ["rep1"];
     ReportConfig.optimal_model_reports := ["rep2"];
     ReportConfig.performance_reports := [];
     ReportConfig.model_reports := [];
     ReportConfig.data_reports := ["rep1"] |}.

Definition with_performance_report : ReportConfig.t :=
  {| ReportConfig.data_split_reports := [];
     ReportConfig.optimal_model_reports := [];
     ReportConfig.performance_reports := ["perf1"];
     ReportConfig.model_reports := [];
     ReportConfig.data_reports := [] |}.

Definition split (count : Z) (reports : ReportConfig.t) : SplitConfig.t :=
  {| SplitConfig.split_strategy := tt;
     SplitConfig.split_count := count;
     SplitConfig.training_percentage := tt;
     SplitConfig.label_to_balance := None;
     SplitConfig.reports := reports |}.

(** One label, two candidate settings, two outer folds, one inner fold. *)
Definition process : HPOptimizationProcess.t :=
  HPOptimizationProcess.__init__ "d1" tt ["s1"; "s2"]
    (split 2 some_reports) (split 1 some_reports) tt ["CD"] (Some "results/").

(** The same with a performance report configured for the assessment. *)
Definition process_with_performance_report : HPOptimizationProcess.t :=
  HPOptimizationProcess.__init__ "d1" tt ["s1"; "s2"]
    (split 2 with_performance_report) (split 1 no_reports) tt ["CD"] (Some "results/").

(** The same with no inner fold at all. *)
Definition process_without_inner_folds : HPOptimizationProcess.t :=
  HPOptimizationProcess.__init__ "d1" tt ["s1"; "s2"]
    (split 2 no_reports) (split 0 no_reports) tt ["CD"] (Some "results/").


Definition half : Qc := Q2Qc (1 # 2).
Definition one : Qc := Q2Qc 1.


(** The world of the example: the candidates the strategy, a grid search
    that is never reset, has still to hand out. *)
Definition World : Type := list string.

(** Collaborators that always succeed: the splitter returns two fold
    pairs, the strategy hands out what is left and names [s1] the optimum,
    every inner evaluation scores 1/2 and every assessment 1. *)
Definition handler : @Handler collaborators World := fun X ev =>
  match ev in Event X return World -> Py.Result X * World with
  | PathBuilder_build _ => fun w => (inr tt, w)
  | DataSplitter_run _ => fun w => (inr (["train1"; "train2"], ["test1"; "test2"]), w)
  | get_next_setting _ _ => fun w =>
      match w with
      | [] => (inr None, [])
      | s :: w' => (inr (Some s), w')
      end
  | get_optimal_hps _ => fun w => (inr "s1", w)
  | MLProcess_run _ _ => fun w => (inr {[ "CD" := half ]}, w)
  | DataEncoder_run p => fun w => (inr ("encoded_" +:+ DataEncoderParams.dataset p), w)
  | MLMethodTrainer_run p => fun w => (inr ("fitted_" +:+ MLMethodTrainerParams.method p), w)
  | MLMethodAssessment_run _ => fun w => (inr {[ "CD" := one ]}, w)
  | DataReport_generate_report _ => fun w => (inr tt, w)
  | MLReport_generate_report _ => fun w => (inr tt, w)
  | print _ => fun w => (inr tt, w)
  end.

(** The first outer fold of [process], run against [handler]. *)
Definition fold_run : Outcome Performance * World * list Entry :=
  exec handler (HPOptimizationProcess.run_assessment_fold process 3 "train1" "test1" 1)
    ["s1"; "s2"].

(** The Selection Loop and the whole process, run against [handler]. *)
Definition selection_run : Outcome (@HPSetting collaborators) * World * list Entry :=
  exec handler (HPOptimizationProcess.run_selection process 3 "train1" "results/")
    ["s1"; "s2"].


(** One setting evaluated, and the selection reports run, against
    [handler]. *)
Definition setting_run : Outcome Performance * World * list Entry :=
  exec handler
    (HPOptimizationProcess.test_hp_setting process "s1" ["in1"] ["out1"] "results/") [].

Definition reports_run : Outcome unit * World * list Entry :=
  exec handler
    (HPOptimizationProcess.run_selection_reports process "train1" ["in1"; "in2"]
       ["out1"; "out2"] "results/") [].

End HPOExample.


(** ** What an outer fold may call, for the statements below *)


(** * Properties *)

Local Open Scope list_scope.

(** ** Sorting of filename lists *)

Lemma sorted_StronglySorted (l : list string) : StronglySorted String.le (Py.sorted l).
Proof. unfold Py.sorted. apply StronglySorted_merge_sort; apply _. Qed.

Lemma sorted_Permutation (l : list string) : Py.sorted l ≡ₚ l.
Proof. apply merge_sort_Permutation. Qed.

(** Sorting a sorted list changes nothing: the order is antisymmetric, so a
    list has one sorted arrangement only. *)
Lemma sorted_id (l : list string) : StronglySorted String.le l -> Py.sorted l = l.
Proof.
  intros Hl. apply (StronglySorted_unique String.le); auto using sorted_StronglySorted.
  apply sorted_Permutation.
Qed.

Lemma sorted_idemp (l : list string) : Py.sorted (Py.sorted l) = Py.sorted l.
Proof. apply sorted_id, sorted_StronglySorted. Qed.

Lemma sorted_elem_of (l : list string) (x : string) : x ∈ Py.sorted l <-> x ∈ l.
Proof. by rewrite sorted_Permutation. Qed.

Lemma sorted_NoDup (l : list string) : NoDup l -> NoDup (Py.sorted l).
Proof. by rewrite sorted_Permutation. Qed.

(** ** [Dataset] *)

Section DatasetProps.
Context {Data Params EncodedData : Type}.
Local Abbreviation DS := (Dataset.t Data Params EncodedData).

Lemma dataset_reachable_sorted (self : DS) :
  Dataset.reachable self -> StronglySorted String.le (Dataset.get_filenames self).
Proof.
  induction 1 as [? ? ? ? [fs|] ? ?| | | |]; simpl; auto using sorted_StronglySorted.
  constructor.
Qed.

(** C9. The filename list of a [Dataset] is sorted: [get_filenames] returns
    a sorted rearrangement of the list given to the constructor or to
    [set_filenames]; a dataset built without filenames has the empty list;
    every state reached through the methods has a sorted list; and
    [get_data], in whatever state it is called, hands the generator the
    sorted rearrangement of the filename list, which it also stores. *)
Theorem dataset_filenames_sorted :
  (forall uuid1 d p e (fs : list string) i m,
      let self : DS := Dataset.__init__ uuid1 d p e (Some fs) i m in
      StronglySorted String.le (Dataset.get_filenames self) /\
      Dataset.get_filenames self ≡ₚ fs) /\
  (forall (self : DS) (fs : list string),
      StronglySorted String.le (Dataset.get_filenames (Dataset.set_filenames self fs)) /\
      Dataset.get_filenames (Dataset.set_filenames self fs) ≡ₚ fs) /\
  (forall uuid1 d p e i m,
      Dataset.get_filenames (Dataset.__init__ uuid1 d p e None i m : DS) = []) /\
  (forall self : DS, Dataset.reachable self -> StronglySorted String.le (Dataset.get_filenames self)) /\
  (forall (self : DS) (bs : Z),
      let '(self', generator) := Dataset.get_data self bs in
      StronglySorted String.le (Dataset.file_list generator) /\
      Dataset.file_list generator ≡ₚ Dataset.get_filenames self /\
      Dataset.batch_size generator = bs /\
      Dataset.get_filenames self' = Dataset.file_list generator).
Proof.
  repeat split; simpl;
    auto using sorted_StronglySorted, sorted_Permutation, dataset_reachable_sorted.
Qed.

End DatasetProps.

(** ** [DatasetChainFilter] *)

Section FilterProps.
Context {Data Params EncodedData Chain : Type} `{EqDecision Chain}.
Variable Chain_getitem : string -> option Chain.
Variable str_upper : string -> string.
Variable build_new_metadata :
  Dataset.t Data Params EncodedData -> list nat -> string -> option string.
Variable resolve : string -> string.
Variable creatable : string -> bool.

Import DatasetChainFilter.
Local Abbreviation DS := (Dataset.t Data Params EncodedData).
Local Abbreviation FS := (gmap string (@Repertoire Chain)).
Local Abbreviation Kept := (nat * string * @Repertoire Chain)%type.
Implicit Types (fs : FS) (params : params_t) (c : Chain).

Lemma all_keep_chain_only_chain keep c (r : Repertoire) :
  Chain_getitem (str_upper keep) = Some c ->
  all_keep_chain Chain_getitem str_upper keep (sequences r) = inr (only_chain c r).
Proof.
  intros Hc. unfold only_chain. induction (sequences r) as [|s l IH]; simpl; [done|].
  rewrite Hc. destruct (decide _) as [Heq|Hne].
  - by rewrite bool_decide_eq_true_2.
  - by rewrite bool_decide_eq_false_2.
Qed.











(** [get_data] leaves an object with a sorted filename list as it is. *)
Lemma get_data_sorted_id (dataset : DS) bs :
  StronglySorted String.le (Dataset.get_filenames dataset) ->
  Dataset.get_data dataset bs =
    (dataset, Dataset.build_generator (Dataset.get_filenames dataset) bs).
Proof.
  intros Hs. destruct dataset as [d p e i fns m]. unfold Dataset.get_data; simpl in *.
  by rewrite (sorted_id fns Hs).
Qed.


End FilterProps.




(** ** Programs and their executions *)

Section ProgProps.
Context {C : Collaborators}.

Lemma traces_call {X} (ev : Event X) log o :
  traces (call ev) log o <->
  (exists e, log = [entry ev (inl e)] /\ o = Raised e) \/
  (exists x, log = [ev ↦ x] /\ o = Returned x).
Proof.
  simpl. split; (intros [?|H]; [by left|right]).
  - destruct H as (x & l' & -> & -> & ->). by exists x.
  - destruct H as (x & -> & ->). by exists x, [].
Qed.

Lemma traces_call_Returned {X} (ev : Event X) log x :
  traces (call ev) log (Returned x) <-> log = [ev ↦ x].
Proof.
  rewrite traces_call. split.
  - intros [(e & _ & ?)|(y & -> & ?)]; [done|]. by simplify_eq.
  - intros ->. right. by exists x.
Qed.

Lemma traces_lift {A} (r : Py.Result A) log o :
  traces (lift r) log o <->
  log = [] /\ o = match r with inl e => Raised e | inr a => Returned a end.
Proof. by destruct r. Qed.

Lemma traces_lift_Returned {A} (r : Py.Result A) log a :
  traces (lift r) log (Returned a) <-> log = [] /\ r = inr a.
Proof.
  rewrite traces_lift. destruct r; split; intros [-> H]; split; try done; by simplify_eq.
Qed.

(** A sequence ends as its first part does when that does not return, and
    as its second part does otherwise. *)
Lemma traces_bind {A B} (p : Prog A) (k : A -> Prog B) log o :
  traces (bind p k) log o <->
  (exists a l1 l2, traces p l1 (Returned a) /\ traces (k a) l2 o /\ log = l1 ++ l2) \/
  (exists e, traces p log (Raised e) /\ o = Raised e) \/
  (traces p log Diverged /\ o = Diverged).
Proof.
  revert log. induction p as [a|e| |X ev k' IH]; intros log; simpl.
  - split.
    + intros Hk. left. by exists a, [], log.
    + intros [(a' & l1 & l2 & [-> Ha] & Hk & ->)|[(e & [_ ?] & _)|[[_ ?] _]]]; [|done..].
      by simplify_eq.
  - split.
    + intros [-> ->]. right. left. by exists e.
    + intros [(a' & l1 & l2 & [_ ?] & _)|[(e' & [-> ?] & ->)|[[_ ?] _]]]; [done| |done].
      by simplify_eq.
  - split.
    + intros [-> ->]. right. by right.
    + intros [(a' & l1 & l2 & [_ ?] & _)|[(e' & [_ ?] & _)|[[-> _] ->]]]; done.
  - split.
    + intros [(e & -> & ->)|(x & l' & -> & Hk)].
      * right. left. exists e. split; [|done]. left. by exists e.
      * apply IH in Hk as [(a & l1 & l2 & Hp & Hk & ->)|[(e & Hp & ->)|[Hp ->]]].
        -- left. exists a, (ev ↦ x :: l1), l2. split_and!; [|done..].
           right. by exists x, l1.
        -- right. left. exists e. split; [|done]. right. by exists x, l'.
        -- right. right. split; [|done]. right. by exists x, l'.
    + intros [(a & l1 & l2 & [(e & _ & ?)|(x & l' & -> & Hp)] & Hk & ->)|
              [(e & [(e' & -> & ?)|(x & l' & -> & Hp)] & ->)|
               [[(e' & _ & ?)|(x & l' & -> & Hp)] ->]]]; try done.
      * right. exists x, (l' ++ l2). split; [done|]. apply IH. left. by exists a, l', l2.
      * left. exists e. by simplify_eq.
      * right. exists x, l'. split; [done|]. apply IH. right. left. by exists e.
      * right. exists x, l'. split; [done|]. apply IH. right. by right.
Qed.

Lemma traces_bind_Returned {A B} (p : Prog A) (k : A -> Prog B) log b :
  traces (bind p k) log (Returned b) <->
  exists a l1 l2, traces p l1 (Returned a) /\ traces (k a) l2 (Returned b) /\ log = l1 ++ l2.
Proof.
  rewrite traces_bind. split.
  - intros [H|[(e & _ & ?)|[_ ?]]]; [exact H|done..].
  - intros H. by left.
Qed.







Lemma calls_only_impl {A} (P Q : forall X, Event X -> Prop) (p : Prog A) :
  (forall X ev, P X ev -> Q X ev) -> calls_only P p -> calls_only Q p.
Proof.
  intros HPQ. induction p as [a|e| |X ev k IH]; simpl; [done..|].
  intros [Hev Hk]. split; [by apply HPQ|]. intros x. by apply IH.
Qed.


(** Executions are traces. *)
Lemma exec_traces {World A} (h : @Handler C World) (p : Prog A) w o w' log :
  exec h p w = (o, w', log) -> traces p log o.
Proof.
  revert w log. induction p as [a|e| |X ev k IH]; intros w log; simpl.
  - by intros [= <- <- <-].
  - by intros [= <- <- <-].
  - by intros [= <- <- <-].
  - destruct (h X ev w) as [[e|x] w1].
    + intros [= <- <- <-]. left. by exists e.
    + destruct (exec h (k x) w1) as [[o1 w2] l1] eqn:Hk. intros [= <- <- <-].
      right. exists x, l1. split; [done|]. by apply (IH x w1).
Qed.

Lemma exec_bind {World A B} (h : @Handler C World) (p : Prog A) (k : A -> Prog B) w :
  exec h (bind p k) w =
    match exec h p w with
    | (Returned a, w1, l1) => let '(o, w2, l2) := exec h (k a) w1 in (o, w2, l1 ++ l2)
    | (Raised e, w1, l1) => (Raised e, w1, l1)
    | (Diverged, w1, l1) => (Diverged, w1, l1)
    end.
Proof.
  revert w. induction p as [a|e| |X ev k' IH]; intros w; simpl.
  - by destruct (exec h (k a) w) as [[??]?].
  - done.
  - done.
  - destruct (h X ev w) as [[e|x] w1]; [done|].
    rewrite IH. destruct (exec h (k' x) w1) as [[[a|e|] w2] l1]; [|done..].
    by destruct (exec h (k a) w2) as [[??]?].
Qed.

End ProgProps.

(** ** Loops *)

Section LoopProps.
Context {C : Collaborators}.

(** A [for] loop that appends returns when every round returns; its log
    is the rounds' logs one after the other. *)
Lemma traces_for_append_Returned {A} (indices : list nat) (body : nat -> Prog A) acc log r :
  traces (for_append indices body acc) log (Returned r) <->
  exists results logs,
    r = acc ++ results /\ log = concat logs /\
    Forall3 (fun i a lg => traces (body i) lg (Returned a)) indices results logs.
Proof.
  revert acc log. induction indices as [|i indices IH]; intros acc log; simpl.
  - split.
    + intros [-> [= <-]]. exists [], []. rewrite app_nil_r. split_and!; [done..|constructor].
    + intros (results & logs & -> & -> & H3). inversion H3; subst. by rewrite app_nil_r.
  - rewrite traces_bind_Returned. split.
    + intros (a & l1 & l2 & Hb & Hrest & ->).
      apply IH in Hrest as (results & logs & -> & -> & H3).
      exists (a :: results), (l1 :: logs). rewrite <- app_assoc. split_and!; [done..|].
      by constructor.
    + intros (results & logs & -> & -> & H3). inversion H3 as [|? a lg ? results' logs' Hb H3']; subst.
      exists a, lg, (concat logs'). split_and!; [done| |done].
      apply IH. exists results', logs'. by rewrite <- app_assoc.
Qed.

Lemma traces_for_each_Returned {X} (xs : list X) (body : X -> Prog unit) log u :
  traces (for_each xs body) log (Returned u) <->
  exists logs,
    log = concat logs /\ Forall2 (fun x lg => traces (body x) lg (Returned tt)) xs logs.
Proof.
  destruct u. revert log. induction xs as [|x xs IH]; intros log; simpl.
  - split.
    + intros [-> _]. exists []. split; [done|constructor].
    + intros (logs & -> & H2). by inversion H2.
  - rewrite traces_bind_Returned. split.
    + intros ([] & l1 & l2 & Hb & Hrest & ->).
      apply IH in Hrest as (logs & -> & H2).
      exists (l1 :: logs). split; [done|]. by constructor.
    + intros (logs & -> & H2). inversion H2 as [|? lg ? logs' Hb H2']; subst.
      exists tt, lg, (concat logs'). split_and!; [done| |done].
      apply IH. by exists logs'.
Qed.

Lemma Forall3_length_lm {A B D} (P : A -> B -> D -> Prop) l k k' :
  Forall3 P l k k' -> length l = length k /\ length k = length k'.
Proof. induction 1; simpl; lia. Qed.

Lemma Forall3_lookup_m_inv {A B D} (P : A -> B -> D -> Prop) l k k' i y :
  Forall3 P l k k' -> k !! i = Some y ->
  exists x z, l !! i = Some x /\ k' !! i = Some z /\ P x y z.
Proof.
  intros H3. revert i. induction H3 as [|x y' z l k k' HP H3 IH]; intros [|i] Hi; simplify_eq/=.
  - by exists x, z.
  - by apply IH.
Qed.

End LoopProps.

(** ** [HPOptimizationProcess]: one outer fold *)

Section FoldProps.
Context {C : Collaborators}.
Variable self : HPOptimizationProcess.t.
Import HPOptimizationProcess.

(** C2. A fold that returns has made its calls in this order: create the
    fold's directory; the whole Selection Loop on the training fold,
    which yields the optimal setting; encode the training fold in learn
    mode; train the optimal setting's method on that encoded training
    fold; encode the test fold in apply mode; assess the method just
    trained on the encoded test fold, whose answer is the fold's record;
    the assessment reports. *)
Theorem assessment_fold_order (fuel : nat) (train test : Dataset) (run : Z)
    (log : list Entry) (performance : Performance) :
  traces (run_assessment_fold self fuel train test run) log (Returned performance) ->
  exists optimal l_selection enc_train p_enc_train p_train method
         enc_test p_enc_test p_assess l_reports,
    traces (run_selection self fuel train (fold_path self run)) l_selection (Returned optimal) /\
    traces (run_assessment_reports self train test method (fold_path self run +:+ "reports/"))
      l_reports (Returned tt) /\
    log = [PathBuilder_build (fold_path self run) ↦ tt] ++ l_selection ++
          [DataEncoder_run p_enc_train ↦ enc_train;
           MLMethodTrainer_run p_train ↦ method;
           DataEncoder_run p_enc_test ↦ enc_test;
           MLMethodAssessment_run p_assess ↦ performance] ++ l_reports /\
    (* encode the training fold, learn mode *)
    DataEncoderParams.dataset p_enc_train = train /\
    DataEncoderParams.encoder p_enc_train = encoder optimal /\
    EncoderParams.model (DataEncoderParams.encoder_params p_enc_train)
      = encoder_params optimal /\
    EncoderParams.learn_model (DataEncoderParams.encoder_params p_enc_train) = true /\
    (* train the optimal method on the whole encoded training fold *)
    MLMethodTrainerParams.method p_train = ml_method optimal /\
    MLMethodTrainerParams.dataset p_train = enc_train /\
    (* encode the test fold, apply mode *)
    DataEncoderParams.dataset p_enc_test = test /\
    DataEncoderParams.encoder p_enc_test = encoder optimal /\
    EncoderParams.model (DataEncoderParams.encoder_params p_enc_test)
      = encoder_params optimal /\
    EncoderParams.learn_model (DataEncoderParams.encoder_params p_enc_test) = false /\
    (* assess the trained method on the encoded test fold *)
    MLMethodAssessmentParams.method p_assess = method /\
    MLMethodAssessmentParams.dataset p_assess = enc_test /\
    MLMethodAssessmentParams.run p_assess = run.
Proof.
  unfold run_assessment_fold. fold (fold_path self run).
  intros H.
  apply traces_bind_Returned in H as ([] & l0 & k0 & H0 & H & ->).
  apply traces_call_Returned in H0 as ->.
  apply traces_bind_Returned in H as (optimal & l_sel & k1 & Hsel & H & ->).
  apply traces_bind_Returned in H as (enc_train & l1 & k2 & H1 & H & ->).
  apply traces_call_Returned in H1 as ->.
  apply traces_bind_Returned in H as (method & l2 & k3 & H2 & H & ->).
  unfold train_optimal_method in H2.
  apply traces_bind_Returned in H2 as (cv & lcv & l2' & Hcv & H2 & ->).
  apply traces_lift_Returned in Hcv as [-> Hcv].
  apply traces_bind_Returned in H2 as (nf & lnf & l2'' & Hnf & H2 & ->).
  apply traces_lift_Returned in Hnf as [-> Hnf].
  apply traces_call_Returned in H2 as ->.
  apply traces_bind_Returned in H as (enc_test & l3 & k4 & H3 & H & ->).
  apply traces_call_Returned in H3 as ->.
  apply traces_bind_Returned in H as (perf & l4 & k5 & H4 & H & ->).
  apply traces_call_Returned in H4 as ->.
  apply traces_bind_Returned in H as ([] & l_rep & k6 & Hrep & [-> Hret] & ->).
  injection Hret as ->.
  eexists optimal, l_sel, enc_train, _, _, method, enc_test, _, _, l_rep.
  split; [exact Hsel|]. split; [exact Hrep|].
  split; [by rewrite app_nil_r|]. simpl. by split_and!.
Qed.

End FoldProps.

(** ** More on [Dataset] *)

Section DatasetMore.
Context {Data Params EncodedData : Type}.
Local Abbreviation DS := (Dataset.t Data Params EncodedData).



(** [get_repertoire_count] counts every filename given, duplicates
    included: sorting neither drops nor merges entries. *)
Theorem get_repertoire_count_given :
  (forall uuid1 d p e (fs : list string) i m,
      Dataset.get_repertoire_count (Dataset.__init__ uuid1 d p e (Some fs) i m : DS)
        = length fs) /\
  (forall (self : DS) (fs : list string),
      Dataset.get_repertoire_count (Dataset.set_filenames self fs) = length fs) /\
  (forall (self : DS) (bs : Z),
      Dataset.get_repertoire_count (Dataset.get_data self bs).1
        = Dataset.get_repertoire_count self).
Proof.
  split_and!; intros; unfold Dataset.get_repertoire_count; simpl;
    by rewrite sorted_Permutation.
Qed.

(** [get_data] does not change an object that was built by the
    constructor and used through the methods only, and in any state a
    second [get_data] changes nothing more and yields the same generator. *)
Theorem get_data_unchanged :
  (forall (self : DS) (bs : Z),
      Dataset.reachable self -> (Dataset.get_data self bs).1 = self) /\
  (forall (self : DS) (bs bs' : Z),
      Dataset.get_data (Dataset.get_data self bs').1 bs
        = ((Dataset.get_data self bs').1,
           Dataset.build_generator (Dataset.file_list (Dataset.get_data self bs').2) bs)).
Proof.
  split.
  - intros self bs Hr. apply dataset_reachable_sorted in Hr.
    destruct self as [d p e i fns m]. unfold Dataset.get_data; simpl in *.
    by rewrite (sorted_id fns Hr).
  - intros self bs bs'. unfold Dataset.get_data; simpl. by rewrite sorted_idemp.
Qed.

End DatasetMore.



(** *** [get_repertoire] *)

Section GetRepertoireProps.
Context {Data Params EncodedData Repertoire : Type}.
Variable load_repertoire : string -> Py.Result Repertoire.
Import DatasetRepertoire.
Local Abbreviation DS := (Dataset.t Data Params EncodedData).

(** A Python index within [-n, n) reads position [i mod n]. *)
Lemma index_getitem_mod {A} (l : list A) (i : Z) :
  (- Z.of_nat (length l) <= i < Z.of_nat (length l))%Z ->
  index_getitem l i = Py.getitem l (Z.to_nat (i mod Z.of_nat (length l))).
Proof.
  intros Hi. unfold index_getitem. destruct (Z.leb_spec 0 i) as [Hpos|Hneg].
  - by rewrite Z.mod_small by lia.
  - destruct (Z.leb_spec (- Z.of_nat (length l)) i) as [_|?]; [|lia].
    f_equal. f_equal.
    rewrite <- (Z.mod_add i 1 (Z.of_nat (length l))) by lia.
    rewrite Z.mod_small by lia. lia.
Qed.

Lemma index_getitem_out_of_range {A} (l : list A) (i : Z) :
  (i < - Z.of_nat (length l) \/ Z.of_nat (length l) <= i)%Z ->
  index_getitem l i = inl Py.IndexError.
Proof.
  intros Hi. unfold index_getitem. destruct (Z.leb_spec 0 i) as [Hpos|Hneg].
  - unfold Py.getitem. rewrite lookup_ge_None_2; [done|lia].
  - destruct (Z.leb_spec (- Z.of_nat (length l)) i); [lia|done].
Qed.

(** How [get_repertoire] picks its file. With a filename, that file is
    loaded and the index is not even looked at. Without one, index [-1]
    trips the assertion although [-1] is Python's index of the last
    element; any other index within [-n, n) loads the file at position
    [index mod n] of the filename list, and any other index outside
    raises [IndexError] without loading anything. *)
Theorem get_repertoire_choice (self : DS) :
  let files := Dataset.get_filenames self in
  let n := Z.of_nat (length files) in
  (forall index filename, filename <> "" ->
      get_repertoire load_repertoire self index filename = loaded (load_repertoire filename)) /\
  (exists message, get_repertoire load_repertoire self (-1) "" = inl (AssertionError message)) /\
  (forall index, index <> (-1)%Z -> (- n <= index < n)%Z ->
      exists file, files !! Z.to_nat (index mod n) = Some file /\
        get_repertoire load_repertoire self index "" = loaded (load_repertoire file)) /\
  (forall index, index <> (-1)%Z -> (index < - n \/ n <= index)%Z ->
      get_repertoire load_repertoire self index "" = inl (Exception Py.IndexError)).
Proof.
  cbv zeta. split_and!.
  - intros index filename Hf. unfold get_repertoire.
    rewrite (bool_decide_eq_true_2 (filename <> "")) by done.
    rewrite orb_true_r. simpl. by destruct (load_repertoire filename).
  - eexists. unfold get_repertoire. reflexivity.
  - intros index Hne Hrange. unfold get_repertoire.
    rewrite (bool_decide_eq_true_2 (index <> (-1)%Z)) by done. simpl.
    unfold Dataset.get_filenames in *. rewrite index_getitem_mod by done.
    destruct (lookup_lt_is_Some_2 (Dataset._filenames self)
                (Z.to_nat (index mod Z.of_nat (length (Dataset._filenames self))))) as [file Hfile].
    { pose proof (Z.mod_pos_bound index (Z.of_nat (length (Dataset._filenames self)))). lia. }
    exists file. split; [done|]. unfold Py.getitem. rewrite Hfile. simpl.
    by destruct (load_repertoire file).
  - intros index Hne Hout. unfold get_repertoire.
    rewrite (bool_decide_eq_true_2 (index <> (-1)%Z)) by done. simpl.
    unfold Dataset.get_filenames in *. by rewrite index_getitem_out_of_range.
Qed.

End GetRepertoireProps.

(** On an object built and used through its methods, [get_repertoire]
    by position and the generator of [get_data] agree: position [i] is the
    [i]-th file the generator reads. *)
Theorem get_repertoire_follows_get_data {Data Params EncodedData Repertoire : Type}
    (load_repertoire : string -> Py.Result Repertoire)
    (self : Dataset.t Data Params EncodedData) (i : nat) (bs : Z) :
  Dataset.reachable self ->
  i < Dataset.get_repertoire_count self ->
  exists file,
    Dataset.file_list (Dataset.get_data self bs).2 !! i = Some file /\
    DatasetRepertoire.get_repertoire load_repertoire self (Z.of_nat i) ""
      = DatasetRepertoire.loaded (load_repertoire file).
Proof.
  intros Hr Hi. unfold Dataset.get_repertoire_count in Hi.
  destruct (get_repertoire_choice load_repertoire self) as (_ & _ & Hidx & _).
  destruct (Hidx (Z.of_nat i)) as (file & Hfile & Hget).
  { lia. }
  { unfold Dataset.get_filenames. lia. }
  exists file. split; [|done].
  unfold Dataset.get_filenames in Hfile.
  rewrite Z.mod_small, Nat2Z.id in Hfile by lia.
  pose proof (dataset_reachable_sorted self Hr) as Hs. unfold Dataset.get_filenames in Hs.
  simpl. by rewrite (sorted_id _ Hs).
Qed.

Lemma get_repertoire_follows_get_data_witness :
  exists file,
    Dataset.file_list
      (Dataset.get_data
         (Dataset.__init__ 1 None None None (Some ["b"; "a"]) None None
            : Dataset.t unit unit unit) 1).2 !! 0 = Some file /\
    DatasetRepertoire.get_repertoire (fun f => inr f)
      (Dataset.__init__ 1 None None None (Some ["b"; "a"]) None None
         : Dataset.t unit unit unit) 0 ""
      = DatasetRepertoire.loaded (inr file : Py.Result string).
Proof.
  apply (get_repertoire_follows_get_data (fun f => inr f)
           (Dataset.__init__ 1 None None None (Some ["b"; "a"]) None None
              : Dataset.t unit unit unit) 0 1).
  - constructor.
  - vm_compute. lia.
Defined.

(** ** More on [DatasetChainFilter.process] *)

Section FilterMore.
Context {Data Params EncodedData Chain : Type} `{EqDecision Chain}.
Variable Chain_getitem : string -> option Chain.
Variable str_upper : string -> string.
Variable build_new_metadata :
  Dataset.t Data Params EncodedData -> list nat -> string -> option string.
Variable resolve : string -> string.
Variable creatable : string -> bool.

Import DatasetChainFilter.
Local Abbreviation DS := (Dataset.t Data Params EncodedData).
Local Abbreviation FS := (gmap string (@Repertoire Chain)).
Local Abbreviation run_loop :=
  (process_loop Chain_getitem str_upper resolve creatable).
Local Abbreviation run_process :=
  (process Chain_getitem str_upper build_new_metadata resolve creatable).
Implicit Types (fs : FS) (params : params_t) (c : Chain).

Lemma all_keep_chain_ext k1 k2 (seqs : list (@ReceptorSequence Chain)) :
  str_upper k1 = str_upper k2 ->
  all_keep_chain Chain_getitem str_upper k1 seqs
  = all_keep_chain Chain_getitem str_upper k2 seqs.
Proof.
  intros Hk. induction seqs as [|s seqs IH]; simpl; [done|].
  rewrite Hk. destruct (Chain_getitem (str_upper k2)); [|done].
  by destruct (decide _).
Qed.

Lemma process_loop_ext k1 k2 rp (dataset : DS) files :
  str_upper k1 = str_upper k2 ->
  forall index fs filenames indices,
    run_loop {| keep_chain := k1; result_path := rp |} dataset index files fs filenames indices
    = run_loop {| keep_chain := k2; result_path := rp |} dataset index files fs filenames indices.
Proof.
  intros Hk. induction files as [|f files IH]; intros index fs filenames indices; simpl; [done|].
  destruct (load_repertoire resolve f fs) as [e|r]; simpl; [done|].
  rewrite (all_keep_chain_ext k1 k2 _ Hk).
  destruct (all_keep_chain Chain_getitem str_upper k2 (sequences r)) as [e|[]];
    simpl; [done| |apply IH].
  destruct (Py.getitem (Dataset.get_filenames dataset) index) as [e|src]; simpl; [done|].
  unfold new_filename; simpl.
  destruct (os_rename resolve creatable src _ fs) as [e|fs1]; simpl; [done|]. apply IH.
Qed.

(** [keep_chain] counts through its upper-case form only: two names with
    the same upper-case form, such as a name and that form itself when
    upper-casing twice changes nothing more, make the filter do the same
    on every dataset and disk, failures included. *)
Theorem process_keep_chain_case (k1 k2 rp : string) (dataset : DS) fs :
  str_upper k1 = str_upper k2 ->
  run_process dataset {| keep_chain := k1; result_path := rp |} fs
  = run_process dataset {| keep_chain := k2; result_path := rp |} fs.
Proof.
  intros Hk. unfold process. destruct (Dataset.get_data dataset 1) as [dataset' generator].
  by rewrite (process_loop_ext k1 k2 rp _ _ Hk).
Qed.

(** What the loop adds to the filename list: at most one new path per file
    read, each of the form [result_path + identifier + ".pickle"]. *)
Lemma process_loop_added params (dataset : DS) files :
  forall index fs filenames indices fs' filenames' indices',
    run_loop params dataset index files fs filenames indices
      = inr (fs', filenames', indices') ->
    exists added,
      filenames' = filenames ++ added /\ length added <= length files /\
      Forall (fun name => exists r : @Repertoire Chain, name = new_filename params r) added.
Proof.
  induction files as [|f files IH]; intros index fs filenames indices fs' filenames' indices';
    simpl.
  - intros [= <- <- <-]. exists []. by rewrite app_nil_r.
  - destruct (load_repertoire resolve f fs) as [e|r]; simpl; [done|].
    destruct (all_keep_chain Chain_getitem str_upper (keep_chain params) (sequences r))
      as [e|[]]; simpl; [done| |].
    + destruct (Py.getitem (Dataset.get_filenames dataset) index) as [e|src]; simpl; [done|].
      destruct (os_rename resolve creatable src _ fs) as [e|fs1]; simpl; [done|].
      intros Hloop. apply IH in Hloop as (added & -> & Hlen & Hall).
      exists (new_filename params r :: added). rewrite <- app_assoc.
      split_and!; [done|simpl; lia|].
      constructor; [by exists r|done].
    + intros Hloop. apply IH in Hloop as (added & -> & Hlen & Hall).
      exists added. split_and!; [done|lia|done].
Qed.

(** Whenever [process] returns, whatever is on the disk: the result holds
    no more filenames than the input, each of the form
    [result_path + identifier + ".pickle"]; its identifier, data, params
    and encoded data are those of the input; and the input object is left
    as [get_data] leaves it. *)
Theorem process_returns_shape (dataset : DS) params fs processed dataset' fs' :
  run_process dataset params fs = inr (processed, dataset', fs') ->
  Dataset.get_repertoire_count processed <= Dataset.get_repertoire_count dataset /\
  (forall name, name ∈ Dataset.get_filenames processed ->
     exists identifier, name = result_path params +:+ identifier +:+ ".pickle") /\
  Dataset.id processed = Dataset.id dataset /\
  Dataset.data processed = Dataset.data dataset /\
  Dataset.params processed = Dataset.params dataset /\
  Dataset.encoded_data processed = Dataset.encoded_data dataset /\
  dataset' = (Dataset.get_data dataset 1).1.
Proof.
  unfold process. simpl.
  destruct (process_loop _ _ _ _ _ _ _ _ _ _ _) as [e|[[fs1 filenames] indices]] eqn:Hloop;
    simpl; [done|].
  intros [= <- <- <-].
  apply process_loop_added in Hloop as (added & -> & Hlen & Hall). simpl in *.
  split_and!; try done.
  - unfold Dataset.get_repertoire_count. simpl.
    rewrite !sorted_Permutation in *. done.
  - intros name Hname. rewrite sorted_elem_of in Hname.
    rewrite list.Forall_forall in Hall. destruct (Hall name Hname) as [r ->].
    by exists (identifier r).
Qed.

Lemma os_rename_same (src dst : string) fs (r : Repertoire) :
  fs !! resolve src = Some r -> resolve dst = resolve src -> creatable dst = true ->
  os_rename resolve creatable src dst fs = inr fs.
Proof.
  intros Hf Heq Hcr. unfold os_rename. rewrite Hf, Hcr, Heq. f_equal.
  rewrite insert_delete_eq. by apply insert_id.
Qed.

Lemma process_loop_in_place params (dataset : DS) c fs :
  Chain_getitem (str_upper (keep_chain params)) = Some c ->
  forall files index filenames indices,
    (forall i f, files !! i = Some f -> Dataset.get_filenames dataset !! (index + i) = Some f) ->
    (forall f, f ∈ files ->
       exists r, fs !! resolve f = Some r /\ only_chain c r = true /\
                 resolve (new_filename params r) = resolve f /\
                 creatable (new_filename params r) = true) ->
    run_loop params dataset index files fs filenames indices =
      inr (fs, filenames ++ (new_path_of resolve params fs <$> files),
           indices ++ seq index (length files)).
Proof.
  intros Hc files. induction files as [|file files IH];
    intros index filenames indices Hidx Hin; simpl.
  - by rewrite !app_nil_r.
  - destruct (Hin file) as (r & Hr & Hkeep & Hname & Hcr); [left|].
    unfold load_repertoire. rewrite Hr. simpl.
    rewrite (all_keep_chain_only_chain Chain_getitem str_upper _ c r Hc), Hkeep. simpl.
    unfold Py.getitem. rewrite <- (Nat.add_0_r index) at 1.
    rewrite (Hidx 0 file eq_refl). simpl.
    rewrite (os_rename_same file _ fs r Hr Hname Hcr). simpl.
    rewrite IH.
    + unfold new_path_of at 2. rewrite Hr. by rewrite <- !app_assoc.
    + intros i f Hi. replace (S index + i) with (index + S i) by lia. by apply Hidx.
    + intros f Hf. apply Hin. by right.
Qed.

(** A dataset that is already filtered is a fixed point, up to the
    spelling of paths: when each of its files holds a repertoire of the
    kept chain only and is already the file that
    [result_path + identifier + ".pickle"] names, [process] returns a
    dataset that lists the same files, and leaves the disk and the input
    object exactly as they were. *)
Theorem process_in_place (dataset : DS) params fs c :
  StronglySorted String.le (Dataset.get_filenames dataset) ->
  Chain_getitem (str_upper (keep_chain params)) = Some c ->
  (forall f, f ∈ Dataset.get_filenames dataset ->
     exists r, fs !! resolve f = Some r /\ only_chain c r = true /\
               resolve (new_filename params r) = resolve f /\
               creatable (new_filename params r) = true) ->
  exists processed,
    run_process dataset params fs = inr (processed, dataset, fs) /\
    resolve <$> Dataset.get_filenames processed ≡ₚ resolve <$> Dataset.get_filenames dataset /\
    Dataset.metadata_file processed
      = build_new_metadata dataset (seq 0 (Dataset.get_repertoire_count dataset))
          (result_path params).
Proof.
  intros Hs Hc Hin. unfold process.
  rewrite (get_data_sorted_id dataset 1 Hs). simpl.
  rewrite (process_loop_in_place params dataset c fs Hc); [|done..]. simpl.
  eexists. split; [reflexivity|]. simpl. split; [|done].
  rewrite sorted_Permutation, <- list_fmap_compose.
  assert (resolve ∘ new_path_of resolve params fs <$> Dataset.get_filenames dataset
          = resolve <$> Dataset.get_filenames dataset) as ->; [|done].
  apply list_fmap_ext. intros i f Hf. simpl. unfold new_path_of.
  destruct (Hin f) as (r & Hr & _ & Hname & _); [by eapply list_elem_of_lookup_2|].
  by rewrite Hr.
Qed.

Lemma process_loop_no_chain params (dataset : DS) :
  Chain_getitem (str_upper (keep_chain params)) = None ->
  forall files index fs filenames indices fs' filenames' indices',
    run_loop params dataset index files fs filenames indices
      = inr (fs', filenames', indices') ->
    length filenames' = length filenames + length files.
Proof.
  intros Hc files. induction files as [|f files IH];
    intros index fs filenames indices fs' filenames' indices'; simpl.
  - intros [= <- <- <-]. lia.
  - destruct (load_repertoire resolve f fs) as [e|r]; simpl; [done|].
    destruct (sequences r) as [|s seqs]; simpl; [|by rewrite Hc].
    destruct (Py.getitem (Dataset.get_filenames dataset) index) as [e|src]; simpl; [done|].
    destruct (os_rename resolve creatable src _ fs) as [e|fs1]; simpl; [done|].
    intros Hloop. apply IH in Hloop. rewrite length_app in Hloop. simpl in Hloop. lia.
Qed.

(** With a [keep_chain] that names no member of the enum: a run that
    returns has kept every repertoire (all of them were empty, so that
    [Chain[...]] was never evaluated); and when the first file read holds
    a repertoire with a sequence, [process] raises [KeyError] with the
    upper-cased name. *)
Theorem process_no_chain (dataset : DS) params fs :
  Chain_getitem (str_upper (keep_chain params)) = None ->
  (forall processed dataset' fs',
      run_process dataset params fs = inr (processed, dataset', fs') ->
      Dataset.get_repertoire_count processed = Dataset.get_repertoire_count dataset) /\
  (forall f (r : Repertoire),
      Py.sorted (Dataset.get_filenames dataset) !! 0 = Some f ->
      fs !! resolve f = Some r -> sequences r <> [] ->
      run_process dataset params fs = inl (Py.KeyError (str_upper (keep_chain params)))).
Proof.
  intros Hc. split.
  - intros processed dataset' fs'. unfold process. simpl.
    destruct (process_loop _ _ _ _ _ _ _ _ _ _ _) as [e|[[fs1 filenames] indices]] eqn:Hloop;
      simpl; [done|].
    intros [= <- <- <-]. apply (process_loop_no_chain params _ Hc) in Hloop.
    unfold Dataset.get_repertoire_count. simpl in *.
    rewrite !sorted_Permutation in *. done.
  - intros f r Hf Hr Hseq. unfold process, Dataset.get_filenames in *. simpl.
    destruct (Py.sorted (Dataset._filenames dataset)) as [|f' files]; simplify_eq/=.
    unfold load_repertoire. rewrite Hr. simpl.
    destruct (sequences r) as [|s seqs]; [done|]. simpl. by rewrite Hc.
Qed.

Lemma process_loop_needs_files params (dataset : DS) files :
  forall index fs filenames indices fs' filenames' indices',
    run_loop params dataset index files fs filenames indices
      = inr (fs', filenames', indices') ->
    forall f, f ∈ files ->
      is_Some (fs !! resolve f) \/
      exists r : @Repertoire Chain, resolve f = resolve (new_filename params r).
Proof.
  induction files as [|file files IH];
    intros index fs filenames indices fs' filenames' indices'; simpl.
  - intros _ f Hf. by apply elem_of_nil in Hf.
  - unfold load_repertoire. destruct (fs !! resolve file) as [r|] eqn:Hfile; simpl; [|done].
    destruct (all_keep_chain Chain_getitem str_upper (keep_chain params) (sequences r))
      as [e|[]]; simpl; [done| |].
    + destruct (Py.getitem (Dataset.get_filenames dataset) index) as [e|src]; simpl; [done|].
      unfold os_rename. destruct (fs !! resolve src) as [r'|] eqn:Hsrc; simpl; [|done].
      destruct (creatable (new_filename params r)); simpl; [|done].
      intros Hloop f [->|Hf]%elem_of_cons; [left; by rewrite Hfile|].
      destruct (IH _ _ _ _ _ _ _ Hloop f Hf) as [Hsome|?]; [|by right].
      destruct (decide (resolve (new_filename params r) = resolve f)) as [Heq|Hne];
        [right; by exists r|].
      rewrite lookup_insert_ne in Hsome by done.
      destruct (decide (resolve src = resolve f)) as [Heq'|Hne'];
        [left; by rewrite <- Heq', Hsrc|].
      rewrite lookup_delete_ne in Hsome by done. by left.
    + intros Hloop f [->|Hf]%elem_of_cons; [left; by rewrite Hfile|].
      by apply (IH _ _ _ _ _ _ _ Hloop).
Qed.

(** [process] reads every file of the dataset: if it returns, each
    recorded file was on the disk at the start, or is the file that some
    path of the form [result_path + identifier + ".pickle"] names (where
    an earlier move may have put it). A recorded file that is missing and
    is named by no such path makes [process] fail. *)
Theorem process_needs_files (dataset : DS) params fs processed dataset' fs' :
  run_process dataset params fs = inr (processed, dataset', fs') ->
  forall f, f ∈ Dataset.get_filenames dataset ->
    is_Some (fs !! resolve f) \/
    exists identifier, resolve f = resolve (result_path params +:+ identifier +:+ ".pickle").
Proof.
  unfold process. simpl.
  destruct (process_loop _ _ _ _ _ _ _ _ _ _ _) as [e|[[fs1 filenames] indices]] eqn:Hloop;
    simpl; [done|].
  intros _ f Hf.
  destruct (process_loop_needs_files _ _ _ _ _ _ _ _ _ _ Hloop f) as [?|[r Hr]].
  - by apply sorted_elem_of.
  - by left.
  - right. by exists (identifier r).
Qed.

End FilterMore.

Lemma process_keep_chain_case_witness :
  FilterExample.process FilterExample.dataset
    {| DatasetChainFilter.keep_chain := "a"; DatasetChainFilter.result_path := "out/" |}
    FilterExample.disk
  = FilterExample.process FilterExample.dataset
      {| DatasetChainFilter.keep_chain := "A"; DatasetChainFilter.result_path := "out/" |}
      FilterExample.disk.
Proof.
  apply (process_keep_chain_case FilterExample.Chain_getitem Py.upper_ascii
           FilterExample.build_new_metadata FilterExample.resolve FilterExample.creatable
           "a" "A" "out/" FilterExample.dataset FilterExample.disk).
  reflexivity.
Defined.

Lemma process_returns_shape_witness :
  Dataset.get_repertoire_count FilterEdgeCases.processed <= 2 /\
  Dataset.id FilterEdgeCases.processed = Dataset.id FilterExample.dataset.
Proof.
  destruct (process_returns_shape FilterExample.Chain_getitem Py.upper_ascii
              FilterExample.build_new_metadata FilterExample.resolve FilterExample.creatable
              FilterExample.dataset FilterExample.params FilterExample.disk
              FilterEdgeCases.processed FilterExample.dataset FilterEdgeCases.disk_after)
    as (Hcount & _ & Hid & _).
  - vm_compute. reflexivity.
  - split; [exact Hcount|exact Hid].
Defined.

Lemma process_in_place_witness :
  exists processed,
    FilterExample.process FilterExample.dataset_in_place FilterExample.params
      FilterExample.disk_in_place
      = inr (processed, FilterExample.dataset_in_place, FilterExample.disk_in_place).
Proof.
  destruct (process_in_place FilterExample.Chain_getitem Py.upper_ascii
              FilterExample.build_new_metadata FilterExample.resolve FilterExample.creatable
              FilterExample.dataset_in_place FilterExample.params FilterExample.disk_in_place
              FilterExample.A) as (processed & Hrun & _).
  - apply sorted_StronglySorted.
  - reflexivity.
  - intros f Hf. apply sorted_elem_of, list_elem_of_singleton in Hf. subst f.
    exists FilterExample.rep1. split_and!; reflexivity.
  - exists processed. exact Hrun.
Defined.

Lemma process_no_chain_witness :
  (forall processed dataset' fs',
      FilterExample.process FilterEdgeCases.dataset_empty FilterEdgeCases.no_chain
        FilterEdgeCases.disk_empty = inr (processed, dataset', fs') ->
      Dataset.get_repertoire_count processed = 1) /\
  FilterExample.process FilterExample.dataset FilterEdgeCases.no_chain FilterExample.disk
    = inl (Py.KeyError "GAMMA").
Proof.
  split.
  - apply (process_no_chain FilterExample.Chain_getitem Py.upper_ascii
             FilterExample.build_new_metadata FilterExample.resolve FilterExample.creatable
             FilterEdgeCases.dataset_empty FilterEdgeCases.no_chain FilterEdgeCases.disk_empty).
    reflexivity.
  - apply (process_no_chain FilterExample.Chain_getitem Py.upper_ascii
             FilterExample.build_new_metadata FilterExample.resolve FilterExample.creatable
             FilterExample.dataset FilterEdgeCases.no_chain FilterExample.disk eq_refl)
      with (f := "in//a.pkl") (r := FilterExample.rep1); [reflexivity|reflexivity|discriminate].
Defined.

Lemma process_needs_files_witness :
  is_Some (FilterExample.disk !! FilterExample.resolve "in/b.pkl") \/
  exists identifier,
    FilterExample.resolve "in/b.pkl"
    = FilterExample.resolve ("out/" +:+ identifier +:+ ".pickle").
Proof.
  apply (process_needs_files FilterExample.Chain_getitem Py.upper_ascii
           FilterExample.build_new_metadata FilterExample.resolve FilterExample.creatable
           FilterExample.dataset FilterExample.params FilterExample.disk
           FilterEdgeCases.processed FilterExample.dataset FilterEdgeCases.disk_after).
  - vm_compute. reflexivity.
  - apply sorted_elem_of. left.
Defined.

(** ** [HPOptimizationProcess]: averaging performance records *)

Section AverageProps.
Context {C : Collaborators}.
Variable self : HPOptimizationProcess.t.
Import HPOptimizationProcess.

Local Abbreviation labels := (get_labels_by_name (label_configuration self)).

Lemma sum_label_from (label : string) (performances : list Performance) (start : Qc) :
  fold_left
    (fun acc perf => (s <- acc ;; v <- Py.dict_getitem perf label ;; inr (s + v)%Qc)%R)
    performances (inr start)
  = match label_values label performances with
    | Some values => inr (start + total values)%Qc
    | None => inl (Py.KeyError label)
    end.
Proof.
  revert start. induction performances as [|perf performances IH]; intros start.
  - simpl. f_equal. unfold total. simpl. ring.
  - unfold label_values in *. simpl. unfold Performance in *.
    destruct (perf !! label) as [v|] eqn:Hv; simpl.
    + assert (Py.dict_getitem perf label = inr v) as ->
        by (unfold Py.dict_getitem; by rewrite Hv).
      simpl. rewrite IH. destruct (mapM _ performances) as [values|]; simpl; [|done].
      f_equal. unfold total. simpl. ring.
    + assert (Py.dict_getitem perf label = inl (Py.KeyError label)) as ->
        by (unfold Py.dict_getitem; by rewrite Hv).
      simpl. clear IH. by induction performances.
Qed.

Lemma sum_label_total (label : string) (performances : list Performance) :
  sum_label label performances
  = match label_values label performances with
    | Some values => inr (total values)
    | None => inl (Py.KeyError label)
    end.
Proof.
  unfold sum_label. rewrite sum_label_from.
  destruct (label_values label performances); [|done]. f_equal. ring.
Qed.

Lemma sum_div_len_cases (label : string) (performances : list Performance) :
  sum_div_len label performances
  = match label_values label performances with
    | Some values =>
        if decide (performances = []) then inl Py.ZeroDivisionError
        else inr (total values / count performances)%Qc
    | None => inl (Py.KeyError label)
    end.
Proof.
  unfold sum_div_len. rewrite sum_label_total.
  destruct (label_values label performances); simpl; [|done].
  by destruct performances.
Qed.



Lemma average_fold_failed (performances : list Performance) (ls : list string)
    (d : Performance) (e : Py.Exn) :
  fold_left
    (fun acc label =>
       (d <- acc ;; v <- sum_div_len label performances ;; inr (<[label := v]> d))%R)
    ls (inr d) = inl e ->
  exists label, label ∈ ls /\ sum_div_len label performances = inl e.
Proof.
  revert d. induction ls as [|l ls IH]; intros d; simpl; [done|].
  destruct (sum_div_len l performances) as [e'|v] eqn:Hv; simpl.
  - intros Hf. exists l. split; [left|].
    assert (e' = e) as ->; [|done].
    clear -Hf. induction ls; simpl in *; [by injection Hf|auto].
  - intros Hf. destruct (IH _ Hf) as (label & ? & ?). exists label. split; [by right|done].
Qed.


(** How [get_average_performance] fails. With no registered label it
    returns the empty record for any list. With a label and no record it
    divides by zero. Any failure is [ZeroDivisionError] on the empty list,
    or [KeyError] for a registered label that some record lacks. *)
Theorem get_average_performance_errors (performances : list Performance) :
  (labels = [] -> get_average_performance self performances = inr ∅) /\
  (labels <> [] -> performances = [] ->
     get_average_performance self performances = inl Py.ZeroDivisionError) /\
  (forall e, get_average_performance self performances = inl e ->
     (e = Py.ZeroDivisionError /\ performances = []) \/
     (exists label perf, label ∈ labels /\ perf ∈ performances /\
        perf !! label = None /\ e = Py.KeyError label)).
Proof.
  unfold get_average_performance. split_and!.
  - by intros ->.
  - intros Hl ->. destruct labels as [|l ls]; [done|]. simpl.
    clear. by induction ls.
  - intros e He. apply average_fold_failed in He as (label & Hl & He).
    rewrite sum_div_len_cases in He.
    destruct (label_values label performances) as [values|] eqn:Hv.
    + destruct (decide (performances = [])); [|done]. left. by simplify_eq.
    + right. injection He as <-. unfold label_values in Hv.
      apply mapM_None_1, list.Exists_exists in Hv as (perf & Hp & Hnone).
      by exists label, perf.
Qed.

End AverageProps.


(** ** [HPOptimizationProcess]: failures *)

Section FailureProps.
Context {C : Collaborators}.
Variable self : HPOptimizationProcess.t.
Import HPOptimizationProcess.

(** [run_performance_report] is not implemented: with a performance report
    configured for the assessment, [run_assessment_reports] cannot return,
    and neither can an outer fold, whatever the collaborators answer. *)
Theorem performance_reports_unimplemented :
  ReportConfig.performance_reports (SplitConfig.reports (assessment self)) <> [] ->
  (forall train test method path log o,
      traces (run_assessment_reports self train test method path) log o -> o <> Returned tt) /\
  (forall fuel train test run log performance,
      ~ traces (run_assessment_fold self fuel train test run) log (Returned performance)).
Proof.
  intros Hreports.
  assert (Hnever : forall train test method path log,
            ~ traces (run_assessment_reports self train test method path) log (Returned tt)).
  { intros train test method path log. unfold run_assessment_reports.
    destruct (ReportConfig.performance_reports _) as [|report reports]; [done|].
    intros H.
    apply traces_bind_Returned in H as (u1 & l1 & k1 & _ & H & _).
    apply traces_bind_Returned in H as (u2 & l2 & k2 & _ & H & _).
    simpl in H. destruct H as [_ H]. discriminate H. }
  split.
  - intros train test method path log o H ->. by apply Hnever in H.
  - intros fuel train test run log performance H.
    apply assessment_fold_order in H
      as (? & ? & ? & ? & ? & method & ? & ? & ? & l_reports & _ & H & _).
    by apply Hnever in H.
Qed.


(** With a selection [split_count] of zero or less, [test_hp_setting]
    evaluates no fold at all and then averages an empty list: it raises
    [ZeroDivisionError] without calling anything when a label is
    registered, and returns the empty record when none is. *)
Theorem test_hp_setting_no_folds (hp_setting : HPSetting)
    (train_datasets test_datasets : list Dataset) (current_path : string) :
  (SplitConfig.split_count (selection self) <= 0)%Z ->
  test_hp_setting self hp_setting train_datasets test_datasets current_path
  = match get_labels_by_name (label_configuration self) with
    | [] => Ret ∅
    | _ :: _ => Raise Py.ZeroDivisionError
    end.
Proof.
  intros Hcount. unfold test_hp_setting, Py.range.
  replace (Z.to_nat (SplitConfig.split_count (selection self))) with 0 by lia. simpl.
  destruct (get_average_performance_errors self []) as (Hnone & Hsome & _).
  destruct (get_labels_by_name (label_configuration self)) as [|l ls] eqn:Hl.
  - by rewrite Hnone.
  - by rewrite Hsome.
Qed.


End FailureProps.

Lemma performance_reports_unimplemented_witness :
  ~ traces (HPOptimizationProcess.run_assessment_fold
              HPOExample.process_with_performance_report 1 "train1" "test1" 1)
      [] (Returned ∅).
Proof.
  apply (performance_reports_unimplemented HPOExample.process_with_performance_report).
  discriminate.
Defined.

Lemma test_hp_setting_no_folds_witness :
  HPOptimizationProcess.test_hp_setting HPOExample.process_without_inner_folds
    "s1" ["tr"] ["te"] "results/"
  = Raise Py.ZeroDivisionError.
Proof.
  apply (test_hp_setting_no_folds HPOExample.process_without_inner_folds "s1" ["tr"] ["te"]
           "results/").
  vm_compute. discriminate.
Defined.


(** The first outer fold of the example returns; its selection part is a
    run of the Selection Loop on [train1]. *)
Lemma assessment_fold_order_witness :
  exists optimal l_selection,
    traces (HPOptimizationProcess.run_selection HPOExample.process 3 "train1"
              (HPOptimizationProcess.fold_path HPOExample.process 1))
      l_selection (Returned optimal).
Proof.
  destruct (assessment_fold_order HPOExample.process 3 "train1" "test1" 1
              HPOExample.fold_run.2 {[ "CD" := HPOExample.one ]})
    as (optimal & l_selection & _ & _ & _ & _ & _ & _ & _ & _ & Hselection & _).
  - apply (exec_traces HPOExample.handler _ ["s1"; "s2"] _ HPOExample.fold_run.1.2).
    assert (HPOExample.fold_run.1.1 = Returned {[ "CD" := HPOExample.one ]}) as <-
      by (vm_compute; reflexivity).
    unfold HPOExample.fold_run. by destruct (exec _ _ _) as [[? ?] ?].
  - by exists optimal, l_selection.
Defined.

(** ** [HPOptimizationProcess]: what an outer fold calls *)

Section FoldCalls.
Context {C : Collaborators}.
Variable self : HPOptimizationProcess.t.
Import HPOptimizationProcess.





End FoldCalls.


(** ** [HPOptimizationProcess]: evaluating one setting, and the selection reports *)

Section SettingProps.
Context {C : Collaborators}.
Variable self : HPOptimizationProcess.t.
Import HPOptimizationProcess.

(** A call of [run_setting] that returns has created the directory of the
    setting and fold and then run one [MLProcess] there, on the two
    datasets given and with the setting's encoder, method and parameters;
    what it returns is what [MLProcess.run] answered. *)
Lemma traces_run_setting hp_setting train test run_id current_path log performance :
  traces (run_setting self hp_setting train test run_id current_path) log (Returned performance) ->
  exists p,
    log = [PathBuilder_build (MLProcess.path p) ↦ tt; MLProcess_run p run_id ↦ performance] /\
    MLProcess.path p
      = current_path +:+ HPSetting_str hp_setting +:+ "/fold_" +:+ pretty run_id +:+ "/" /\
    MLProcess.train_dataset p = train /\
    MLProcess.test_dataset p = test /\
    MLProcess.encoder p = encoder hp_setting /\
    MLProcess.encoder_params p = encoder_params hp_setting /\
    MLProcess.method p = ml_method hp_setting /\
    MLProcess.ml_params p = ml_params hp_setting /\
    MLProcess.reports p
      = ReportConfig.model_reports (SplitConfig.reports (selection self)).
Proof.
  unfold run_setting. intros H.
  apply traces_bind_Returned in H as ([] & l1 & l2 & H1 & H2 & ->).
  apply traces_call_Returned in H1 as ->. apply traces_call_Returned in H2 as ->.
  simpl. match goal with |- context [MLProcess_run ?q run_id ↦ performance] => exists q end.
  by split_and!.
Qed.

(** A call of [test_hp_setting] that returns has evaluated the setting on
    the inner folds 1 to [split_count] in order, each on the training and
    test dataset of that position, by one [run_setting] each; and it
    returns the average (see [get_average_performance]) of the records
    these evaluations answered. *)
Theorem test_hp_setting_folds (hp_setting : HPSetting)
    (train_datasets test_datasets : list Dataset) (current_path : string)
    (log : list Entry) (average : Performance) :
  traces (test_hp_setting self hp_setting train_datasets test_datasets current_path) log
    (Returned average) ->
  exists performances logs,
    get_average_performance self performances = inr average /\
    length performances = Z.to_nat (SplitConfig.split_count (selection self)) /\
    log = concat logs /\
    Forall3
      (fun index performance lg =>
         exists train test,
           train_datasets !! index = Some train /\ test_datasets !! index = Some test /\
           traces (run_setting self hp_setting train test (Z.of_nat index + 1) current_path)
             lg (Returned performance))
      (seq 0 (Z.to_nat (SplitConfig.split_count (selection self)))) performances logs.
Proof.
  unfold test_hp_setting, Py.range. intros H.
  apply traces_bind_Returned in H as (performances & l1 & l2 & Hfolds & Havg & ->).
  apply traces_lift_Returned in Havg as [-> Havg].
  apply traces_for_append_Returned in Hfolds as (results & logs & -> & -> & H3).
  exists results, logs. simpl. split_and!; [done| |by rewrite app_nil_r|].
  - apply Forall3_length_lm in H3 as [Hlen _]. by rewrite length_seq in Hlen.
  - eapply Forall3_impl; [exact H3|]. intros index performance lg Hbody. simpl in Hbody.
    apply traces_bind_Returned in Hbody as (train & k1 & k2 & Htrain & Hbody & ->).
    apply traces_lift_Returned in Htrain as [-> Htrain].
    apply traces_bind_Returned in Hbody as (test & k3 & k4 & Htest & Hbody & ->).
    apply traces_lift_Returned in Htest as [-> Htest].
    exists train, test. unfold Py.getitem in *.
    destruct (train_datasets !! index); [|done]. destruct (test_datasets !! index); [|done].
    by simplify_eq.
Qed.

(** Each data-split report of the selection is run on every inner training
    and test dataset, and each data report once on the whole dataset: a
    call of [run_selection_reports] that returns has made
    [2 * |data_split_reports| * |train_datasets| + |data_reports|] report
    calls, and, if a data-split report is configured, there were at least
    as many test datasets as training datasets (a shorter test list raises
    [IndexError]). *)
Theorem run_selection_reports_count (dataset : Dataset)
    (train_datasets test_datasets : list Dataset) (path : string) (log : list Entry) :
  traces (run_selection_reports self dataset train_datasets test_datasets path) log
    (Returned tt) ->
  length log
    = 2 * length (ReportConfig.data_split_reports (SplitConfig.reports (selection self)))
        * length train_datasets
      + length (ReportConfig.data_reports (SplitConfig.reports (selection self))) /\
  (ReportConfig.data_split_reports (SplitConfig.reports (selection self)) <> [] ->
   length train_datasets <= length test_datasets).
Proof.
  unfold run_selection_reports. intros H.
  apply traces_bind_Returned in H as ([] & l1 & l2 & Hsplit & Hdata & ->).
  apply traces_for_each_Returned in Hsplit as (logs1 & -> & Hsplit).
  apply traces_for_each_Returned in Hdata as (logs2 & -> & Hdata).
  assert (Hinner : forall (report : DataReport) lg,
            traces
              (for_each (seq 0 (length train_datasets))
                 (fun index =>
                    (train <- lift (Py.getitem train_datasets index) ;;
                     run_data_report report train
                       (path +:+ "split_" +:+ pretty (Z.of_nat index + 1)%Z +:+ "/train/") ;;;
                     test <- lift (Py.getitem test_datasets index) ;;
                     run_data_report report test
                       (path +:+ "split_" +:+ pretty (Z.of_nat index + 1)%Z +:+ "/test/"))%P))
              lg (Returned tt) ->
            length lg = 2 * length train_datasets /\ length train_datasets <= length test_datasets).
  { intros report lg Hlg. apply traces_for_each_Returned in Hlg as (logs & -> & Hlogs).
    assert (Hall : Forall2 (fun index lg' => length lg' = 2 /\ index < length test_datasets)
                     (seq 0 (length train_datasets)) logs).
    { apply (list.Forall2_impl _ _ _ _ Hlogs). intros index lg' Hbody. cbv beta in Hbody.
      apply traces_bind_Returned in Hbody as (train & k1 & k2 & Htrain & Hbody & ->).
      apply traces_lift_Returned in Htrain as [-> Htrain]. cbv beta in Hbody.
      apply traces_bind_Returned in Hbody as ([] & k3 & k4 & Hr1 & Hbody & ->).
      apply traces_call_Returned in Hr1 as ->. cbv beta in Hbody.
      apply traces_bind_Returned in Hbody as (test & k5 & k6 & Htest & Hr2 & ->).
      apply traces_lift_Returned in Htest as [-> Htest].
      apply traces_call_Returned in Hr2 as ->. split; [done|].
      unfold Py.getitem in Htest. destruct (test_datasets !! index) eqn:Hl; [|done].
      by eapply lookup_lt_Some. }
    clear Hlogs. split.
    - assert (length (concat logs) = 2 * length logs) as ->.
      { clear -Hall. induction Hall as [|? ? ? ? [Hl _] _ IH]; [done|].
        simpl. rewrite length_app, IH, Hl. lia. }
      apply Forall2_length in Hall. rewrite length_seq in Hall. lia.
    - destruct (decide (length train_datasets <= length test_datasets)) as [|Hgt]; [done|].
      assert (Hlast : seq 0 (length train_datasets) !! length test_datasets
                      = Some (length test_datasets)).
      { rewrite lookup_seq. split; [done|lia]. }
      destruct (Forall2_lookup_l _ _ _ _ _ Hall Hlast) as (? & _ & _ & ?). lia. }
  split.
  - rewrite length_app.
    assert (length (concat logs2)
            = length (ReportConfig.data_reports (SplitConfig.reports (selection self)))) as ->.
    { clear -Hdata. induction Hdata as [|report lg ? ? Hlg _ IH]; [done|].
      simpl. rewrite length_app, IH. apply traces_call_Returned in Hlg as ->. done. }
    assert (length (concat logs1)
            = 2 * length train_datasets
              * length (ReportConfig.data_split_reports (SplitConfig.reports (selection self))))
      as ->; [|lia].
    clear -Hsplit Hinner. induction Hsplit as [|report lg ? ? Hlg _ IH]; [simpl; lia|].
    simpl. rewrite length_app, IH. destruct (Hinner report lg Hlg) as [-> _]. lia.
  - intros Hne. destruct Hsplit as [|report lg ? ? Hlg _]; [done|].
    by destruct (Hinner report lg Hlg).
Qed.

End SettingProps.

(** Running a program of the example: its log is a trace with the
    outcome computed. *)
Ltac example_trace run w0 :=
  match goal with
  | |- traces ?p _ ?o =>
      apply (exec_traces HPOExample.handler p w0 _ run.1.2);
      assert (run.1.1 = o) as <- by (vm_compute; reflexivity);
      unfold run; by destruct (exec _ _ _) as [[? ?] ?]
  end.

Lemma test_hp_setting_folds_witness :
  exists performances,
    HPOptimizationProcess.get_average_performance HPOExample.process performances
      = inr {[ "CD" := HPOExample.half ]} /\
    length performances = 1.
Proof.
  destruct (test_hp_setting_folds HPOExample.process "s1" ["in1"] ["out1"] "results/"
              HPOExample.setting_run.2 {[ "CD" := HPOExample.half ]})
    as (performances & logs & Havg & Hlen & _).
  - example_trace HPOExample.setting_run (@nil string).
  - by exists performances.
Defined.

Lemma run_selection_reports_count_witness :
  length HPOExample.reports_run.2 = 5.
Proof.
  destruct (run_selection_reports_count HPOExample.process "train1" ["in1"; "in2"]
              ["out1"; "out2"] "results/" HPOExample.reports_run.2) as [Hlen _].
  - example_trace HPOExample.reports_run (@nil string).
  - exact Hlen.
Defined.

(** ** [HPOptimizationProcess]: the Selection Loop and the Assessment Loop *)

Section LoopsProps.
Context {C : Collaborators}.
Variable self : HPOptimizationProcess.t.
Import HPOptimizationProcess.

Lemma traces_selection_loop fuel hp_setting train_datasets test_datasets path log :
  traces (selection_loop self fuel hp_setting train_datasets test_datasets path) log
    (Returned tt) ->
  rounds self train_datasets test_datasets path hp_setting log.
Proof.
  revert hp_setting log. induction fuel as [|fuel IH]; intros [setting|] log; simpl.
  - by intros [_ ?].
  - intros [-> _]. constructor.
  - intros H. apply traces_bind_Returned in H as (average & l1 & l2 & Heval & H & ->).
    cbv beta in H.
    change (traces (bind (call (get_next_setting (hp_strategy self) (Some (setting, average))))
                      (fun next => selection_loop self fuel next train_datasets test_datasets
                                     path)) l2 (Returned tt)) in H.
    apply traces_bind_Returned in H as (next & l3 & l4 & Hnext & H & ->).
    apply traces_call_Returned in Hnext as ->.
    apply (rounds_next self _ _ _ setting l1 average next l4); [done|by apply IH].
  - intros [-> _]. constructor.
Qed.

(** A Selection Loop that returns has, in this order: split the training
    dataset it was given; created its directory; asked the strategy for a
    first candidate with no arguments; gone through the rounds (evaluate
    the candidate, hand it back with its averaged record, receive the
    next) until the strategy answered [None]; run the selection reports;
    and only then asked the strategy for the optimum, which it returns. *)
Theorem run_selection_protocol (fuel : nat) (train_dataset : Dataset) (current_path : string)
    (log : list Entry) (optimal : HPSetting) :
  traces (run_selection self fuel train_dataset current_path) log (Returned optimal) ->
  exists p train_datasets test_datasets first l_rounds l_reports,
    log = [DataSplitter_run p ↦ (train_datasets, test_datasets);
           PathBuilder_build (selection_path self current_path) ↦ tt;
           get_next_setting (hp_strategy self) None ↦ first]
          ++ l_rounds ++ l_reports ++ [get_optimal_hps (hp_strategy self) ↦ optimal] /\
    DataSplitterParams.dataset p = train_dataset /\
    DataSplitterParams.split_count p = SplitConfig.split_count (selection self) /\
    rounds self train_datasets test_datasets (selection_path self current_path) first l_rounds /\
    traces (run_selection_reports self train_dataset train_datasets test_datasets
              (selection_path self current_path +:+ "reports/")) l_reports (Returned tt).
Proof.
  unfold run_selection, split_data. fold (selection_path self current_path). intros H.
  apply traces_bind_Returned in H as ([trs tes] & l1 & k1 & Hsplit & H & ->).
  apply traces_call_Returned in Hsplit as ->. cbv beta iota in H.
  apply traces_bind_Returned in H as ([] & l2 & k2 & Hbuild & H & ->).
  apply traces_call_Returned in Hbuild as ->. cbv beta in H.
  apply traces_bind_Returned in H as (first & l3 & k3 & Hfirst & H & ->).
  apply traces_call_Returned in Hfirst as ->. cbv beta in H.
  apply traces_bind_Returned in H as ([] & l4 & k4 & Hloop & H & ->).
  apply traces_selection_loop in Hloop. cbv beta in H.
  apply traces_bind_Returned in H as ([] & l5 & k5 & Hreports & H & ->).
  apply traces_call_Returned in H as ->.
  eexists _, trs, tes, first, l4, l5. split; [reflexivity|]. by split_and!.
Qed.


End LoopsProps.

Lemma run_selection_protocol_witness :
  exists (p : @DataSplitterParams.t HPOExample.collaborators)
         train_datasets test_datasets first l_rounds,
    DataSplitterParams.dataset p = ("train1" : @Dataset HPOExample.collaborators) /\
    rounds HPOExample.process train_datasets test_datasets
      (HPOptimizationProcess.selection_path HPOExample.process "results/") first l_rounds.
Proof.
  destruct (run_selection_protocol HPOExample.process 3 "train1" "results/"
              HPOExample.selection_run.2 "s1")
    as (p & trs & tes & first & l_rounds & l_reports & _ & Hp & _ & Hrounds & _).
  - example_trace HPOExample.selection_run ["s1"; "s2"].
  - by exists p, trs, tes, first, l_rounds.
Defined.

